(** * Bayesian-network model selection, prediction and error evaluation

    A shallow embedding of [source_code/bayesian.py]: the model-selection
    grid [find_best_model], the predictor [predict_value] and the error
    evaluator [calculate_error], together with the properties the
    specification states about them.

    Modelling conventions.
    - Python code runs in the monad [Py]: it appends to a trace of
      observable events (lines printed, logging records, calls of the
      inference engine) and either returns a value or raises an exception.
    - The search, scoring and inference engines of pgmpy are capabilities:
      [estimate] and [score] are functions, a fitted network is a record
      holding its node list and its inference function.
    - Scores are real numbers (canonical rationals [Qc]); the program's
      floats are [pyfloat], which adds the two special values the program
      itself produces: [float('-inf')] and the [nan] that [np.mean] returns
      on an empty array.  The rounding of a quotient to binary64 is not
      modelled.
    - Cell values of a table (discretised states) are drawn from a type [V]
      with decidable equality. *)

From Stdlib Require Import ZArith QArith Qcanon.
From stdpp Require Import base list strings gmap numbers sets.

Local Open Scope string_scope.
Local Open Scope list_scope.

(** ** Python runtime *)

(** Instances of [Exception]; every one of them is caught by
    [except Exception]. *)
Inductive exn : Type :=
| KeyError (labels : list string)
| ValueError (msg : string)
| OtherException (cls msg : string).

Inductive outcome (A : Type) : Type :=
| Returned (a : A)
| Raised (e : exn).
Arguments Returned {A} a.
Arguments Raised {A} e.

(** The floats of the program. *)
Inductive pyfloat : Type :=
| NegInf
| Real (q : Qc)
| NaN.

(** [x > y] on floats: every real exceeds [-inf], a comparison with [nan]
    is false. *)
Definition float_gt (x y : pyfloat) : bool :=
  match x, y with
  | Real a, Real b => bool_decide (b < a)%Qc
  | Real _, NegInf => true
  | _, _ => false
  end.

(** [x * 100]: [-inf] and [nan] are absorbing. *)
Definition times_100 (x : pyfloat) : pyfloat :=
  match x with
  | Real a => Real (a * Qc_of_Z 100)%Qc
  | NegInf => NegInf
  | NaN => NaN
  end.

(** A pandas table: its columns in order, each a label and its values. *)
Definition DataFrame (V : Type) : Type := list (string * list V).

Definition columns {V} (df : DataFrame V) : list string := df.*1.

(** A learnt structure: nodes and directed edges. *)
Record DAG : Type := mkDAG {
  dag_nodes : list string;
  dag_edges : list (string * string)
}.

(** A scoring object ([BicScore], [BDeuScore], [BDsScore], ...): its one
    method [score]. *)
Record ScoringMethod : Type := mkScoring {
  score : DAG → Qc
}.

(** A fitted network: [nodes()] and [predict(data)]. *)
Record BayesianNetwork (V : Type) : Type := mkNetwork {
  nodes : list string;
  predict : DataFrame V → outcome (DataFrame V)
}.
Arguments nodes {V} _.
Arguments predict {V} _ _.

(** Observable events, in program order. *)
Inductive event (V : Type) : Type :=
| PrintTraining (method_name : string) (max_iter : Z)
| PrintScore (method_name : string) (max_iter : Z) (s : Qc)
| LogDataNewColumns (cols : list string)
| LogModelNodes (ns : list string)
| CallPredict (data_new : DataFrame V)
| PrintPredicted (pred_value : list V)
| LogPredictFailed (e : exn)
| PrintError (percent : pyfloat)
| LogError (percent : pyfloat)
| LogCalculateFailed (e : exn).
Arguments PrintTraining {V} _ _.
Arguments PrintScore {V} _ _ _.
Arguments LogDataNewColumns {V} _.
Arguments LogModelNodes {V} _.
Arguments CallPredict {V} _.
Arguments PrintPredicted {V} _.
Arguments LogPredictFailed {V} _.
Arguments PrintError {V} _.
Arguments LogError {V} _.
Arguments LogCalculateFailed {V} _.

(** Computations: a trace transformer with a result or an exception. *)
Definition Py (V A : Type) : Type := list (event V) → outcome A * list (event V).

Definition py_ret {V A} (a : A) : Py V A := λ tr, (Returned a, tr).

Definition py_bind {V A B} (m : Py V A) (k : A → Py V B) : Py V B :=
  λ tr, match m tr with
        | (Returned a, tr') => k a tr'
        | (Raised e, tr') => (Raised e, tr')
        end.

Definition emit {V} (ev : event V) : Py V unit := λ tr, (Returned tt, tr ++ [ev]).

(** Run a library call whose outcome is already known. *)
Definition lift {V A} (o : outcome A) : Py V A := λ tr, (o, tr).

(** [try: body / except Exception as e: handler e]. *)
Definition try_except {V A} (body : Py V A) (handler : exn → Py V A) : Py V A :=
  λ tr, match body tr with
        | (Returned a, tr') => (Returned a, tr')
        | (Raised e, tr') => handler e tr'
        end.

Notation "x <- m ;; k" := (py_bind m (λ x, k))
  (at level 100, m at next level, right associativity).
Notation "m ;;; k" := (py_bind m (λ _, k))
  (at level 100, right associativity).

(** [for x in xs: s = body x s], the loop-carried variables being [s]. *)
Fixpoint for_each {V X S} (xs : list X) (body : X → S → Py V S) (s : S) : Py V S :=
  match xs with
  | [] => py_ret s
  | x :: xs' => s' <- body x s ;; for_each xs' body s'
  end.

(** ** Model selection: [find_best_model] *)

(** The four loop-carried variables. *)
Record Best : Type := mkBest {
  best_model : option DAG;
  best_score : pyfloat;
  best_method : option string;
  best_iter : option Z
}.

Definition initial_best : Best :=
  {| best_model := None; best_score := NegInf;
     best_method := None; best_iter := None |}.

Section Selector.
Context {V : Type}.
(** [HillClimbSearch(train_data).estimate(scoring_method=, max_iter=)]: the
    structure the search returns for a scoring object and a budget.  A
    search or a scoring that raises aborts the whole grid; the function
    describes the runs in which both return. *)
Variable estimate : DataFrame V → ScoringMethod → Z → DAG.

(** Body of the inner loop for one grid cell. *)
Definition cell_body (train_data : DataFrame V) (max_iter : Z)
    (item : string * ScoringMethod) (best : Best) : Py V Best :=
  let '(method_name, scoring_method) := item in
  emit (PrintTraining method_name max_iter) ;;;
  let model := estimate train_data scoring_method max_iter in
  let s := score scoring_method model in
  emit (PrintScore method_name max_iter s) ;;;
  if float_gt (Real s) (best_score best)
  then py_ret {| best_model := Some model; best_score := Real s;
                 best_method := Some method_name; best_iter := Some max_iter |}
  else py_ret best.

Definition find_best_model (train_data : DataFrame V)
    (scoring_methods : list (string * ScoringMethod)) (max_iters : list Z)
    : Py V (option DAG * option string * pyfloat * option Z) :=
  best <- for_each max_iters (λ max_iter best,
            for_each scoring_methods (cell_body train_data max_iter) best)
          initial_best ;;
  py_ret (best_model best, best_method best, best_score best, best_iter best).

(** *** The grid, cell by cell *)

(** A cell of the grid: budget, method name, method. *)
Definition Cell : Type := Z * (string * ScoringMethod).

(** The cells in the order the two loops visit them. *)
Definition grid (scoring_methods : list (string * ScoringMethod))
    (max_iters : list Z) : list Cell :=
  max_iter ← max_iters; pair max_iter <$> scoring_methods.

Definition cell_model (train_data : DataFrame V) (c : Cell) : DAG :=
  estimate train_data c.2.2 c.1.

Definition cell_score (train_data : DataFrame V) (c : Cell) : Qc :=
  score c.2.2 (cell_model train_data c).

(** The best-so-far variables as one cell sets them. *)
Definition candidate (train_data : DataFrame V) (c : Cell) : Best :=
  {| best_model := Some (cell_model train_data c);
     best_score := Real (cell_score train_data c);
     best_method := Some c.2.1;
     best_iter := Some c.1 |}.

(** The effect of one cell on the loop-carried variables. *)
Definition visit (train_data : DataFrame V) (best : Best) (c : Cell) : Best :=
  if float_gt (Real (cell_score train_data c)) (best_score best)
  then candidate train_data c else best.

(** The variables after the cells [cs] have been visited. *)
Definition best_after (train_data : DataFrame V) (cs : list Cell) : Best :=
  foldl (visit train_data) initial_best cs.

Definition cell_output (train_data : DataFrame V) (c : Cell) : list (event V) :=
  [PrintTraining c.2.1 c.1; PrintScore c.2.1 c.1 (cell_score train_data c)].

Definition as_tuple (b : Best) : option DAG * option string * pyfloat * option Z :=
  (best_model b, best_method b, best_score b, best_iter b).

(** The score component of the returned tuple. *)
Definition returned_score (t : option DAG * option string * pyfloat * option Z)
    : pyfloat := t.1.2.

(** The loop body run on a list of cells in order, from the loop-carried
    variables [best]: the iteration of [find_best_model] up to a point. *)
Definition run_cells (train_data : DataFrame V) (cells : list Cell)
    (best : Best) : Py V Best :=
  for_each cells (λ c best, cell_body train_data c.1 c.2 best) best.
End Selector.

(** ** Prediction: [predict_value] *)

Section Predictor.
Context {V : Type}.

(** [df.drop(columns=labels)]: a label that is no column raises
    [KeyError]; otherwise every column carrying one of the labels goes. *)
Definition df_drop (df : DataFrame V) (labels : list string)
    : outcome (DataFrame V) :=
  match filter (λ l, l ∉ columns df) labels with
  | [] => Returned (filter (λ col, col.1 ∉ labels) df)
  | missing => Raised (KeyError missing)
  end.

(** [df[key].to_numpy()]: the values of the column labelled [key]. *)
Definition df_getitem (df : DataFrame V) (key : string) : outcome (list V) :=
  match list_find (λ col, col.1 = key) df with
  | Some (_, col) => Returned col.2
  | None => Raised (KeyError [key])
  end.

(** [model_struct.predict(data_new)], the call recorded in the trace. *)
Definition call_predict (model_struct : BayesianNetwork V)
    (data_new : DataFrame V) : Py V (DataFrame V) :=
  λ tr, (predict model_struct data_new, tr ++ [CallPredict data_new]).

(** The statements under [try:]. *)
Definition predict_value_body (model_struct : BayesianNetwork V)
    (states : DataFrame V) : Py V (list V) :=
  let column_names_df1 : gset string := list_to_set (nodes model_struct) in
  let column_names_df2 : gset string := list_to_set (columns states) in
  let columns_only_in_df2 := column_names_df2 ∖ column_names_df1 in
  data_new <- lift (df_drop states (elements columns_only_in_df2 ++ ["forecast"])) ;;
  emit (LogDataNewColumns (columns data_new)) ;;;
  emit (LogModelNodes (nodes model_struct)) ;;;
  prediction <- call_predict model_struct data_new ;;
  pred_value <- lift (df_getitem prediction "forecast") ;;
  emit (PrintPredicted pred_value) ;;;
  py_ret pred_value.

(** The handler logs and falls off the end of the function, which
    returns [None]. *)
Definition predict_value (model_struct : BayesianNetwork V)
    (states : DataFrame V) : Py V (option (list V)) :=
  try_except
    (pred_value <- predict_value_body model_struct states ;;
     py_ret (Some pred_value))
    (λ e, emit (LogPredictFailed e) ;;; py_ret None).

(** The labels [predict_value] asks [drop] to remove. *)
Definition dropped_labels (model_struct : BayesianNetwork V)
    (states : DataFrame V) : list string :=
  elements (list_to_set (columns states) ∖ list_to_set (nodes model_struct)
            : gset string) ++ ["forecast"].

(** The tables handed to the inference engine, read off a trace. *)
Definition inference_inputs (tr : list (event V)) : list (DataFrame V) :=
  omap (λ ev, match ev with CallPredict d => Some d | _ => None end) tr.
End Predictor.

(** ** Error evaluation: [calculate_error] *)

(** What [!=] does with two shapes that do not broadcast: NumPy from 1.25
    on raises [ValueError]; older releases warn (the program silences
    warnings) and answer the single boolean [True]. *)
Inductive shape_mismatch : Type :=
| MismatchRaises
| MismatchIsTrue.

(** Arrays of dimension 0 and 1. *)
Inductive ndarray (T : Type) : Type :=
| Array0 (x : T)
| Array1 (xs : list T).
Arguments Array0 {T} x.
Arguments Array1 {T} xs.

(** The result of [!=]: an array of booleans, or one boolean. *)
Inductive comparison : Type :=
| BoolArray (bs : list bool)
| BoolScalar (b : bool).

Section Evaluator.
Context {V : Type} `{EqDecision V}.
Variable mismatch : shape_mismatch.

(** [np.roll] on a one-dimensional array:
    [result[(i + shift) % n] = a[i]]. *)
Definition roll {T} (a : list T) (shift : Z) : list T :=
  rotate (Z.to_nat ((- shift) `mod` Z.of_nat (length a))) a.

(** [np.roll(pred_value, 1)].  Array elements are [Some v]; [None] is the
    Python object [None], which [np.roll] wraps in an array of dimension 0. *)
Definition np_roll (pred_value : option (list V)) (shift : Z)
    : ndarray (option V) :=
  match pred_value with
  | None => Array0 None
  | Some xs => Array1 (Some <$> roll xs shift)
  end.

Definition ne (x : V) (y : option V) : bool := bool_decide (Some x ≠ y).

(** [real != rolled] with NumPy's broadcasting of shapes. *)
Definition not_equal (real : list V) (rolled : ndarray (option V))
    : outcome comparison :=
  match rolled with
  | Array0 y => Returned (BoolArray ((λ x, ne x y) <$> real))
  | Array1 ys =>
      if decide (length real = length ys)
      then Returned (BoolArray (zip_with ne real ys))
      else match real, ys with
           | _, [y] => Returned (BoolArray ((λ x, ne x y) <$> real))
           | [x], _ => Returned (BoolArray (ne x <$> ys))
           | _, _ =>
               match mismatch with
               | MismatchRaises =>
                   Raised (ValueError "operands could not be broadcast together")
               | MismatchIsTrue => Returned (BoolScalar true)
               end
           end
  end.

Definition count_true (bs : list bool) : nat := length (filter (λ b, b = true) bs).

(** [np.mean] of a result of [!=]; the mean of an empty array is [nan]. *)
Definition np_mean (c : comparison) : pyfloat :=
  match c with
  | BoolScalar b => Real (if b then 1 else 0)%Qc
  | BoolArray [] => NaN
  | BoolArray bs =>
      Real (Q2Qc (Z.of_nat (count_true bs) # Pos.of_nat (length bs)))
  end.

(** The statements under [try:]. *)
Definition calculate_error_body (pred_value : option (list V))
    (real : list V) : Py V pyfloat :=
  neq <- lift (not_equal real (np_roll pred_value 1)) ;;
  let error := np_mean neq in
  emit (PrintError (times_100 error)) ;;;
  emit (LogError (times_100 error)) ;;;
  py_ret error.

Definition calculate_error (pred_value : option (list V)) (real : list V)
    : Py V (option pyfloat) :=
  try_except
    (error <- calculate_error_body pred_value real ;; py_ret (Some error))
    (λ e, emit (LogCalculateFailed e) ;;; py_ret None).

(** *** The error as the specification words it *)

(** Number of positions [i] in [0..n-1] with
    [actual[i] != predicted[(i-1) mod n]]. *)
Definition shifted_mismatches (predicted actual : list V) : nat :=
  let n := length actual in
  length (filter (λ i : nat,
                    actual !! i ≠
                    predicted !! Z.to_nat ((Z.of_nat i - 1) `mod` Z.of_nat n))
                 (seq 0 n)).

Definition fraction (k n : nat) : Qc := Q2Qc (Z.of_nat k # Pos.of_nat n).
End Evaluator.

Definition in_unit_interval (x : pyfloat) : Prop :=
  match x with
  | Real q => (0 ≤ q ≤ 1)%Qc
  | _ => False
  end.

(** ** The script: validation *)

(** The better of two returned tuples under the loop's comparison: the
    second replaces the first on a strictly higher score only. *)
Definition merge_best (t1 t2 : option DAG * option string * pyfloat * option Z)
    : option DAG * option string * pyfloat * option Z :=
  if float_gt (returned_score t2) (returned_score t1) then t2 else t1.

(** The query columns that are model nodes other than "forecast". *)
Definition kept_columns {V} (model_struct : BayesianNetwork V)
    (states : DataFrame V) : DataFrame V :=
  filter (λ col, col.1 ≠ "forecast" ∧ col.1 ∈ nodes model_struct) states.

Section Validation.
Context {V : Type} `{EqDecision V}.
Variable mismatch : shape_mismatch.

(** The validation statements of the script, from reading the column
    "Close" to computing the error; the script prints the value next.
    Reading the column stands outside any [try]. *)
Definition validation_error (model_bayesian : BayesianNetwork V)
    (states_validation : DataFrame V) : Py V (option pyfloat) :=
  validation_real <- lift (df_getitem states_validation "Close") ;;
  prediction_validation_bayesian <-
    predict_value model_bayesian states_validation ;;
  calculate_error mismatch prediction_validation_bayesian validation_real.
End Validation.

(** ** Example inputs *)

(** A search that finds one edge on a budget below 10 and two edges from
    10 on, and scoring objects that pay 10 per edge minus a penalty. *)
Definition example_estimate : DataFrame Z → ScoringMethod → Z → DAG :=
  λ _ _ max_iter,
    if (max_iter <? 10)%Z
    then mkDAG ["A"; "B"; "forecast"] [("A", "forecast")]
    else mkDAG ["A"; "B"; "forecast"] [("A", "forecast"); ("B", "forecast")].

Definition edge_score (penalty : Z) : ScoringMethod :=
  mkScoring (λ g, Qc_of_Z (10 * Z.of_nat (length (dag_edges g)) - penalty)).

Definition example_train : DataFrame Z :=
  [("A", [0; 1; 1]%Z); ("B", [1; 1; 0]%Z); ("forecast", [0; 1; 0]%Z)].

Definition example_methods : list (string * ScoringMethod) :=
  [("BicScore", edge_score 3); ("BDeuScore", edge_score 0);
   ("BDsScore", edge_score 0)].

Definition example_methods_shuffled : list (string * ScoringMethod) :=
  [("BDsScore", edge_score 0); ("BicScore", edge_score 3);
   ("BDeuScore", edge_score 0)].

(** A network over A, B and forecast that predicts forecast as a copy of
    column A, and refuses a table that already holds every node. *)
Definition example_network : BayesianNetwork Z :=
  mkNetwork Z ["A"; "forecast"]
    (λ d, match df_getitem d "A" with
          | Returned a => Returned [("forecast", a)]
          | Raised e => Raised (ValueError "No variable missing in data")
          end).

Definition example_states : DataFrame Z :=
  [("A", [0; 1; 1]%Z); ("volume", [7; 8; 9]%Z); ("forecast", [0; 1; 0]%Z)].

Definition example_states_unlabelled : DataFrame Z :=
  [("A", [0; 1; 1]%Z); ("volume", [7; 8; 9]%Z)].

(** Two scoring objects whose searches end in different structures of one
    score: the search reads the object through its score of the empty
    structure. *)
Definition tie_probe : DAG := mkDAG ["A"; "forecast"] [].
Definition tie_left : DAG := mkDAG ["A"; "forecast"] [("A", "forecast")].
Definition tie_right : DAG := mkDAG ["A"; "forecast"] [("forecast", "A")].

Definition tie_estimate : DataFrame Z → ScoringMethod → Z → DAG :=
  λ _ scoring_method _,
    if bool_decide (score scoring_method tie_probe < Qc_of_Z 1)%Qc
    then tie_left else tie_right.

Definition tie_methods : list (string * ScoringMethod) :=
  [("BDeuScore", mkScoring (λ g, Qc_of_Z (5 * Z.of_nat (length (dag_edges g)))));
   ("BDsScore", mkScoring (λ g, Qc_of_Z (1 + 4 * Z.of_nat (length (dag_edges g)))))].

Definition tie_methods_swapped : list (string * ScoringMethod) :=
  [("BDsScore", mkScoring (λ g, Qc_of_Z (1 + 4 * Z.of_nat (length (dag_edges g)))));
   ("BDeuScore", mkScoring (λ g, Qc_of_Z (5 * Z.of_nat (length (dag_edges g)))))].

(** A network over A and Close, without a node "forecast". *)
Definition example_network_close : BayesianNetwork Z :=
  mkNetwork Z ["A"; "Close"]
    (λ d, match df_getitem d "A" with
          | Returned a => Returned [("Close", a)]
          | Raised e => Raised (ValueError "No variable missing in data")
          end).

(** The query of [example_states] with other labels and another column
    outside the model. *)
Definition example_states_relabelled : DataFrame Z :=
  [("forecast", [1; 1; 1]%Z); ("A", [0; 1; 1]%Z); ("open", [4; 4; 4]%Z)].

Definition example_validation : DataFrame Z :=
  [("A", [0; 1; 1]%Z); ("Close", [1; 0; 1]%Z); ("forecast", [0; 0; 0]%Z)].

Definition example_validation_unlabelled : DataFrame Z :=
  [("A", [0; 1; 1]%Z); ("Close", [1; 0; 1]%Z)].

(** * Properties *)

(** ** Running the loops *)

Section SelectorProofs.
Context {V : Type}.
Variable estimate : DataFrame V → ScoringMethod → Z → DAG.

Local Abbreviation cell_body := (cell_body estimate).
Local Abbreviation find_best_model := (find_best_model estimate).
Local Abbreviation cell_score := (cell_score estimate).
Local Abbreviation cell_model := (cell_model estimate).
Local Abbreviation candidate := (candidate estimate).
Local Abbreviation visit := (visit estimate).
Local Abbreviation best_after := (best_after estimate).
Local Abbreviation cell_output := (cell_output estimate).

(** One pass through the loop body is one [visit]. *)
Lemma cell_body_run train_data max_iter item best (tr : list (event V)) :
  cell_body train_data max_iter item best tr =
  (Returned (visit train_data best (max_iter, item)),
   tr ++ cell_output train_data (max_iter, item)).
Proof.
  destruct item as [method_name scoring_method].
  unfold cell_body, visit, cell_output, candidate, cell_score, cell_model,
    py_bind, emit, py_ret; simpl.
  rewrite <- app_assoc; simpl.
  by case_match.
Qed.

Lemma inner_loop_run train_data max_iter scoring_methods best
    (tr : list (event V)) :
  for_each scoring_methods (cell_body train_data max_iter) best tr =
  (Returned (foldl (visit train_data) best (pair max_iter <$> scoring_methods)),
   tr ++ ((pair max_iter <$> scoring_methods) ≫= cell_output train_data)).
Proof.
  revert best tr.
  induction scoring_methods as [|item rest IH]; intros best tr.
  - simpl. unfold py_ret. by rewrite app_nil_r.
  - cbn [for_each]. unfold py_bind at 1. rewrite cell_body_run, IH.
    rewrite fmap_cons, bind_cons, <- app_assoc. done.
Qed.

Lemma outer_loop_run train_data scoring_methods max_iters best
    (tr : list (event V)) :
  for_each max_iters
    (λ max_iter b, for_each scoring_methods (cell_body train_data max_iter) b)
    best tr =
  (Returned (foldl (visit train_data) best (grid scoring_methods max_iters)),
   tr ++ (grid scoring_methods max_iters ≫= cell_output train_data)).
Proof.
  revert best tr.
  induction max_iters as [|max_iter rest IH]; intros best tr.
  - simpl. unfold py_ret. by rewrite app_nil_r.
  - cbn [for_each]. unfold py_bind at 1. rewrite inner_loop_run, IH.
    unfold grid. rewrite !bind_cons, bind_app, foldl_app, <- app_assoc. done.
Qed.

(** [find_best_model] returns the loop-carried variables left by the
    last cell, and prints two lines per cell. *)
Lemma find_best_model_run train_data scoring_methods max_iters
    (tr : list (event V)) :
  find_best_model train_data scoring_methods max_iters tr =
  (Returned (as_tuple (best_after train_data (grid scoring_methods max_iters))),
   tr ++ (grid scoring_methods max_iters ≫= cell_output train_data)).
Proof.
  unfold find_best_model, py_bind. by rewrite outer_loop_run.
Qed.

Lemma run_cells_run train_data cells best (tr : list (event V)) :
  run_cells estimate train_data cells best tr =
  (Returned (foldl (visit train_data) best cells),
   tr ++ (cells ≫= cell_output train_data)).
Proof.
  unfold run_cells. revert best tr.
  induction cells as [|c cells IH]; intros best tr.
  - simpl. unfold py_ret. by rewrite app_nil_r.
  - cbn [for_each]. unfold py_bind at 1. rewrite cell_body_run, IH.
    rewrite bind_cons, <- app_assoc. by destruct c.
Qed.

(** The nested loops visit the cells of the grid in order, starting from
    the sentinels. *)
Lemma find_best_model_as_run_cells train_data scoring_methods max_iters
    (tr : list (event V)) :
  find_best_model train_data scoring_methods max_iters tr =
  (best <- run_cells estimate train_data (grid scoring_methods max_iters)
             {| best_model := None; best_score := NegInf;
                best_method := None; best_iter := None |} ;;
   py_ret (best_model best, best_method best, best_score best, best_iter best))
  tr.
Proof.
  rewrite find_best_model_run. unfold py_bind. by rewrite run_cells_run.
Qed.

Lemma elem_of_grid scoring_methods max_iters (c : Cell) :
  c ∈ grid scoring_methods max_iters ↔ c.1 ∈ max_iters ∧ c.2 ∈ scoring_methods.
Proof.
  unfold grid. rewrite list_elem_of_bind. split.
  - intros (max_iter & Hc & Hin). apply list_elem_of_fmap in Hc as (item & -> & Hitem).
    done.
  - intros [H1 H2]. exists c.1. split; [|done].
    apply list_elem_of_fmap. exists c.2. by destruct c.
Qed.

Lemma grid_nonempty scoring_methods max_iters :
  scoring_methods ≠ [] → max_iters ≠ [] → grid scoring_methods max_iters ≠ [].
Proof.
  destruct scoring_methods, max_iters; done.
Qed.

Lemma best_after_snoc train_data cs c :
  best_after train_data (cs ++ [c]) = visit train_data (best_after train_data cs) c.
Proof. unfold best_after. by rewrite foldl_app. Qed.

Lemma visit_initial train_data c :
  visit train_data initial_best c = candidate train_data c.
Proof. done. Qed.

Lemma visit_higher train_data best c :
  float_gt (Real (cell_score train_data c)) (best_score best) = true →
  visit train_data best c = candidate train_data c.
Proof. intros H. unfold visit. by rewrite H. Qed.

Lemma visit_not_higher train_data best c :
  float_gt (Real (cell_score train_data c)) (best_score best) = false →
  visit train_data best c = best.
Proof. intros H. unfold visit. by rewrite H. Qed.

Lemma float_gt_Real (a b : Qc) :
  float_gt (Real a) (Real b) = true ↔ (b < a)%Qc.
Proof. simpl. by rewrite bool_decide_eq_true. Qed.

(** The variables after a non-empty run of cells are those of the first
    cell whose score is maximal. *)
Lemma best_after_first_max train_data cs :
  cs ≠ [] →
  ∃ pre c post,
    cs = pre ++ c :: post ∧
    best_after train_data cs = candidate train_data c ∧
    (∀ c', c' ∈ pre → (cell_score train_data c' < cell_score train_data c)%Qc) ∧
    (∀ c', c' ∈ post → (cell_score train_data c' ≤ cell_score train_data c)%Qc).
Proof.
  induction cs as [|x cs IH] using rev_ind; [done|]. intros _.
  rewrite best_after_snoc.
  destruct cs as [|y cs'].
  - exists [], x, []. split_and!; [done|done|..]; intros c' Hc'; inversion Hc'.
  - destruct IH as (pre & c & post & Hcs & Hbest & Hpre & Hpost); [done|].
    rewrite Hbest. unfold visit.
    destruct (float_gt _ _) eqn:Hgt.
    + apply float_gt_Real in Hgt.
      exists (pre ++ c :: post), x, []. split_and!.
      * by rewrite Hcs.
      * done.
      * intros c' Hc'. apply elem_of_app in Hc' as [Hc'|Hc'].
        { eapply Qclt_trans; [by apply Hpre|done]. }
        apply elem_of_cons in Hc' as [->|Hc']; [done|].
        eapply Qcle_lt_trans; [by apply Hpost|done].
      * intros c' Hc'. inversion Hc'.
    + exists pre, c, (post ++ [x]). split_and!.
      * rewrite Hcs. by rewrite <- app_assoc.
      * done.
      * done.
      * intros c' Hc'. apply elem_of_app in Hc' as [Hc'|Hc']; [by apply Hpost|].
        apply list_elem_of_singleton in Hc' as ->.
        apply Qcle_ngt. intros Hlt. apply float_gt_Real in Hlt.
        simpl in Hgt, Hlt. congruence.
Qed.

Lemma best_after_empty_grid train_data :
  best_after train_data [] = initial_best.
Proof. done. Qed.

(** ** The model-selection grid *)

(** C1.  On a grid with at least one budget and one scoring method,
    [find_best_model] returns the tuple of a cell [c] of the grid whose score
    is at least the score of every cell, and every cell visited before [c]
    scores strictly less: among the cells that attain the maximum, [c] is the
    earliest in iteration order. *)
Theorem find_best_model_global_max train_data scoring_methods max_iters
    (tr : list (event V)) :
  scoring_methods ≠ [] → max_iters ≠ [] →
  ∃ pre c post,
    grid scoring_methods max_iters = pre ++ c :: post ∧
    (find_best_model train_data scoring_methods max_iters tr).1 =
      Returned (Some (cell_model train_data c), Some c.2.1,
                Real (cell_score train_data c), Some c.1) ∧
    (∀ c', c' ∈ grid scoring_methods max_iters →
           (cell_score train_data c' ≤ cell_score train_data c)%Qc) ∧
    (∀ c', c' ∈ pre → (cell_score train_data c' < cell_score train_data c)%Qc).
Proof.
  intros Hsm Hmi.
  destruct (best_after_first_max train_data (grid scoring_methods max_iters))
    as (pre & c & post & Hgrid & Hbest & Hpre & Hpost);
    [by apply grid_nonempty|].
  exists pre, c, post. split_and!; [done| |..|done].
  - rewrite find_best_model_run. simpl. by rewrite Hbest.
  - intros c' Hc'. rewrite Hgrid in Hc'.
    apply elem_of_app in Hc' as [Hc'|Hc'].
    { apply Qclt_le_weak. by apply Hpre. }
    apply elem_of_cons in Hc' as [->|Hc']; [apply Qcle_refl|by apply Hpost].
Qed.

(** C7.  The best score starts at negative infinity, so on a non-empty grid
    the candidate of the very first cell (first budget, first method)
    becomes the best: the loop body run on it from the sentinels stores its
    structure, score, method and budget, and [find_best_model] goes on over
    the remaining cells from these four values. *)
Theorem first_cell_becomes_best train_data scoring_methods max_iters
    (tr : list (event V)) :
  scoring_methods ≠ [] → max_iters ≠ [] →
  ∃ max_iter method_name scoring_method rest,
    head max_iters = Some max_iter ∧
    head scoring_methods = Some (method_name, scoring_method) ∧
    grid scoring_methods max_iters =
      (max_iter, (method_name, scoring_method)) :: rest ∧
    let model := estimate train_data scoring_method max_iter in
    let first := {| best_model := Some model;
                    best_score := Real (score scoring_method model);
                    best_method := Some method_name;
                    best_iter := Some max_iter |} in
    let printed := [PrintTraining method_name max_iter;
                    PrintScore method_name max_iter
                      (score scoring_method model)] in
    cell_body train_data max_iter (method_name, scoring_method)
      {| best_model := None; best_score := NegInf;
         best_method := None; best_iter := None |} tr =
      (Returned first, tr ++ printed) ∧
    find_best_model train_data scoring_methods max_iters tr =
      (best <- run_cells estimate train_data rest first ;;
       py_ret (best_model best, best_method best, best_score best,
               best_iter best))
      (tr ++ printed).
Proof.
  intros Hsm Hmi.
  destruct scoring_methods as [|[method_name scoring_method] more_methods];
    [done|].
  destruct max_iters as [|max_iter more_iters]; [done|].
  eexists max_iter, method_name, scoring_method, _.
  split; [done|]. split; [done|]. split.
  { unfold grid. rewrite bind_cons, fmap_cons. reflexivity. }
  cbv zeta. split.
  - by rewrite cell_body_run.
  - rewrite find_best_model_run. unfold py_bind. rewrite run_cells_run.
    unfold grid. rewrite bind_cons, fmap_cons. simpl.
    by rewrite <- app_assoc.
Qed.

Lemma best_after_fields_together train_data (cells : list Cell) (k : nat) :
  let best := best_after train_data (take k cells) in
  best = initial_best ∨
  ∃ (j : nat) c,
    j < k ∧ cells !! j = Some c ∧
    best = candidate train_data c ∧
    float_gt (Real (cell_score train_data c))
             (best_score (best_after train_data (take j cells))) = true.
Proof.
  intros best. subst best. induction k as [|k IH]; [by left|].
  destruct (cells !! k) as [c|] eqn:Hk.
  - rewrite (take_S_r _ _ _ Hk), best_after_snoc.
    destruct (float_gt (Real (cell_score train_data c))
                (best_score (best_after train_data (take k cells)))) eqn:Hgt.
    + rewrite (visit_higher _ _ _ Hgt).
      right. exists k, c. split_and!; [lia|done..].
    + rewrite (visit_not_higher _ _ _ Hgt).
      destruct IH as [IH|(j & c' & Hj & Hc' & Hbest & Hgt')]; [by left|].
      right. exists j, c'. split_and!; [lia|done..].
  - apply lookup_ge_None in Hk.
    rewrite take_ge by lia. rewrite take_ge in IH by lia.
    destruct IH as [IH|(j & c' & Hj & Hc' & Hbest & Hgt')]; [by left|].
    right. exists j, c'. split_and!; [lia|done..].
Qed.

(** C8.  [find_best_model] is the loop body run over the cells of the grid
    from the sentinels; one pass of the body leaves the four best-so-far
    variables as they are or replaces all four by those of its cell, the
    latter exactly on a strictly higher score; so after any number [k] of
    cells the four variables are either all still the sentinels, or all
    four are those of one single earlier cell, whose score was strictly
    greater than the best score held when that cell was visited. *)
Theorem best_fields_updated_together train_data scoring_methods max_iters
    (tr : list (event V)) :
  let cells := grid scoring_methods max_iters in
  let sentinels := {| best_model := None; best_score := NegInf;
                      best_method := None; best_iter := None |} in
  find_best_model train_data scoring_methods max_iters tr =
    (best <- run_cells estimate train_data cells sentinels ;;
     py_ret (best_model best, best_method best, best_score best,
             best_iter best)) tr ∧
  (∀ best max_iter method_name scoring_method (tr0 : list (event V)),
     let model := estimate train_data scoring_method max_iter in
     (cell_body train_data max_iter (method_name, scoring_method) best tr0).1 =
       Returned (if float_gt (Real (score scoring_method model)) (best_score best)
                 then {| best_model := Some model;
                         best_score := Real (score scoring_method model);
                         best_method := Some method_name;
                         best_iter := Some max_iter |}
                 else best)) ∧
  ∀ k : nat, ∃ best tr_k,
    run_cells estimate train_data (take k cells) sentinels tr =
      (Returned best, tr_k) ∧
    (best = sentinels ∨
     ∃ (j : nat) max_iter method_name scoring_method best_j tr_j,
       j < k ∧
       cells !! j = Some (max_iter, (method_name, scoring_method)) ∧
       run_cells estimate train_data (take j cells) sentinels tr =
         (Returned best_j, tr_j) ∧
       float_gt (Real (score scoring_method
                         (estimate train_data scoring_method max_iter)))
                (best_score best_j) = true ∧
       best = {| best_model :=
                   Some (estimate train_data scoring_method max_iter);
                 best_score :=
                   Real (score scoring_method
                           (estimate train_data scoring_method max_iter));
                 best_method := Some method_name;
                 best_iter := Some max_iter |}).
Proof.
  intros cells sentinels. split; [apply find_best_model_as_run_cells|]. split.
  - intros best max_iter method_name scoring_method tr0 model.
    by rewrite cell_body_run.
  - intros k. rewrite run_cells_run. eexists _, _. split; [done|].
    destruct (best_after_fields_together train_data cells k)
      as [Hinit|(j & [max_iter [method_name scoring_method]] & Hj & Hc & Hbest & Hgt)];
      [by left|].
    right. exists j, max_iter, method_name, scoring_method.
    eexists _, _. rewrite run_cells_run. split_and!; done.
Qed.

(** The amended C6.  Two mappings holding the same (name, method) pairs in
    different insertion orders give the same best score; the reported
    method, budget and structure may differ, and only under a tie: when the
    maximum is attained by one cell only, the whole returned tuple is the
    same. *)
Theorem best_score_order_independent train_data sm1 sm2 max_iters
    (tr1 tr2 : list (event V)) :
  sm1 ≡ₚ sm2 →
  ∃ t1 t2,
    (find_best_model train_data sm1 max_iters tr1).1 = Returned t1 ∧
    (find_best_model train_data sm2 max_iters tr2).1 = Returned t2 ∧
    returned_score t1 = returned_score t2 ∧
    ((∀ c1 c2, c1 ∈ grid sm1 max_iters → c2 ∈ grid sm1 max_iters →
               Real (cell_score train_data c1) = returned_score t1 →
               Real (cell_score train_data c2) = returned_score t1 →
               c1 = c2) →
     t1 = t2).
Proof.
  intros Hperm.
  assert (Hmem : ∀ c, c ∈ grid sm1 max_iters ↔ c ∈ grid sm2 max_iters).
  { intros c. rewrite !elem_of_grid. by rewrite Hperm. }
  rewrite !find_best_model_run. simpl.
  eexists _, _. split; [done|]. split; [done|].
  destruct (grid sm1 max_iters) as [|x1 g1] eqn:Hg1.
  { destruct (grid sm2 max_iters) as [|x2 g2] eqn:Hg2; [done|].
    exfalso. destruct (Hmem x2) as [_ Hin].
    specialize (Hin ltac:(left)). inversion Hin. }
  destruct (grid sm2 max_iters) as [|x2 g2] eqn:Hg2.
  { exfalso. destruct (Hmem x1) as [Hin _].
    specialize (Hin ltac:(left)). inversion Hin. }
  destruct (best_after_first_max train_data (x1 :: g1))
    as (pre1 & c1 & post1 & Hcs1 & Hb1 & Hpre1 & Hpost1); [done|].
  destruct (best_after_first_max train_data (x2 :: g2))
    as (pre2 & c2 & post2 & Hcs2 & Hb2 & Hpre2 & Hpost2); [done|].
  assert (Hmax1 : ∀ c, c ∈ x1 :: g1 →
            (cell_score train_data c ≤ cell_score train_data c1)%Qc).
  { intros c Hc. rewrite Hcs1 in Hc. apply elem_of_app in Hc as [Hc|Hc].
    { apply Qclt_le_weak. by apply Hpre1. }
    apply elem_of_cons in Hc as [->|Hc]; [apply Qcle_refl|by apply Hpost1]. }
  assert (Hmax2 : ∀ c, c ∈ x2 :: g2 →
            (cell_score train_data c ≤ cell_score train_data c2)%Qc).
  { intros c Hc. rewrite Hcs2 in Hc. apply elem_of_app in Hc as [Hc|Hc].
    { apply Qclt_le_weak. by apply Hpre2. }
    apply elem_of_cons in Hc as [->|Hc]; [apply Qcle_refl|by apply Hpost2]. }
  assert (Hin1 : c1 ∈ x1 :: g1).
  { rewrite Hcs1. apply elem_of_app. right. left. }
  assert (Hin2 : c2 ∈ x2 :: g2).
  { rewrite Hcs2. apply elem_of_app. right. left. }
  assert (Heq : cell_score train_data c1 = cell_score train_data c2).
  { apply Qcle_antisym.
    - apply Hmax2. by apply Hmem.
    - apply Hmax1. by apply Hmem. }
  rewrite Hb1, Hb2. unfold returned_score, as_tuple, candidate. simpl.
  split; [by rewrite Heq|].
  intros Huniq.
  assert (c1 = c2) as ->; [|done].
  apply Huniq; [done|by apply Hmem|done|by rewrite Heq].
Qed.
End SelectorProofs.

(** ** The predictor *)

Section PredictorProofs.
Context {V : Type}.
Implicit Types (model_struct : BayesianNetwork V) (states : DataFrame V).
Implicit Types (tr : list (event V)).

Lemma filter_none {A} (P : A → Prop) `{!∀ x, Decision (P x)} (l : list A) :
  (∀ x, x ∈ l → ¬ P x) → filter P l = [].
Proof.
  induction l as [|a l IH]; intros Hl; [done|].
  rewrite filter_cons_False; [|apply Hl; left].
  apply IH. intros x Hx. apply Hl. by right.
Qed.

Lemma filter_ext_elem {A} (P Q : A → Prop)
    `{!∀ x, Decision (P x), !∀ x, Decision (Q x)} (l : list A) :
  (∀ x, x ∈ l → P x ↔ Q x) → filter P l = filter Q l.
Proof.
  induction l as [|a l IH]; intros Hl; [done|].
  rewrite !filter_cons.
  assert (Ha : P a ↔ Q a) by (apply Hl; left).
  rewrite IH; [|intros x Hx; apply Hl; by right].
  destruct (decide (P a)), (decide (Q a)); tauto || done.
Qed.

Lemma elem_of_dropped_labels model_struct states l :
  l ∈ dropped_labels model_struct states ↔
  (l ∈ columns states ∧ l ∉ nodes model_struct) ∨ l = "forecast".
Proof.
  unfold dropped_labels.
  rewrite elem_of_app, elem_of_elements, elem_of_difference,
    !elem_of_list_to_set, list_elem_of_singleton. done.
Qed.

(** With a column "forecast" the reconciliation succeeds and keeps exactly
    the columns that are model nodes other than "forecast". *)
Lemma df_drop_with_forecast model_struct states :
  "forecast" ∈ columns states →
  df_drop states (dropped_labels model_struct states) =
  Returned (filter (λ col, col.1 ≠ "forecast" ∧ col.1 ∈ nodes model_struct) states).
Proof.
  intros Hf. unfold df_drop.
  rewrite (filter_none (λ l, l ∉ columns states)).
  2:{ intros l Hl Hnot. apply elem_of_dropped_labels in Hl as [[? _]| ->]; done. }
  f_equal. apply filter_ext_elem. intros [l vs] Hcol. simpl.
  rewrite elem_of_dropped_labels.
  assert (l ∈ columns states).
  { unfold columns. apply list_elem_of_fmap. by exists (l, vs). }
  destruct (decide (l ∈ nodes model_struct)); tauto.
Qed.

(** Without it, [drop] raises [KeyError]. *)
Lemma df_drop_without_forecast model_struct states :
  "forecast" ∉ columns states →
  df_drop states (dropped_labels model_struct states) = Raised (KeyError ["forecast"]).
Proof.
  intros Hf. unfold df_drop, dropped_labels.
  rewrite filter_app, (filter_none (λ l, l ∉ columns states)).
  2:{ intros l Hl Hnot.
      apply elem_of_elements, elem_of_difference in Hl as [Hl _].
      by apply elem_of_list_to_set in Hl. }
  by rewrite filter_cons_True.
Qed.

(** [predict_value] never raises. *)
Lemma predict_value_returns model_struct states tr :
  ∃ r tr', predict_value model_struct states tr = (Returned r, tr').
Proof.
  unfold predict_value, try_except, py_bind.
  destruct (predict_value_body model_struct states tr) as [[v|e] tr1]; simpl.
  - by eexists _, _.
  - unfold emit, py_ret. by eexists _, _.
Qed.

(** C3.  When the query table has a column "forecast", [predict_value] calls
    the inference engine exactly once, on a table that has no column
    "forecast" and only columns that are model nodes: the query columns that
    are nodes other than "forecast", whether or not "forecast" is a node. *)
Theorem forecast_never_given_to_inference model_struct states tr :
  "forecast" ∈ columns states →
  ∃ data_new,
    inference_inputs ((predict_value model_struct states tr).2) =
      inference_inputs tr ++ [data_new] ∧
    ("forecast" ∉ columns data_new) ∧
    (∀ l, l ∈ columns data_new → l ∈ nodes model_struct) ∧
    data_new =
      filter (λ col, col.1 ≠ "forecast" ∧ col.1 ∈ nodes model_struct) states.
Proof.
  intros Hf. eexists. split_and!; [ | | |reflexivity].
  - unfold predict_value, try_except, predict_value_body, py_bind, lift.
    fold (dropped_labels model_struct states).
    rewrite (df_drop_with_forecast _ _ Hf).
    unfold emit, call_predict, py_ret, inference_inputs.
    destruct (predict model_struct _) as [prediction|e];
      [destruct (df_getitem prediction "forecast") as [pred_value|e]|];
      simpl; rewrite !omap_app; simpl; by rewrite ?app_nil_r.
  - unfold columns. intros (col & Hl & Hcol)%list_elem_of_fmap.
    apply list_elem_of_filter in Hcol as [[Hne _] _]. done.
  - unfold columns. intros l (col & -> & Hcol)%list_elem_of_fmap.
    apply list_elem_of_filter in Hcol as [[_ Hn] _]. done.
Qed.

(** C4.  Whatever statement under [try] raises, and whatever it raises,
    [predict_value] does not raise: it logs the failure and returns [None]. *)
Theorem predict_value_failure_is_logged model_struct states tr e tr' :
  predict_value_body model_struct states tr = (Raised e, tr') →
  predict_value model_struct states tr =
    (Returned None, tr' ++ [LogPredictFailed e]).
Proof.
  intros Hbody. unfold predict_value, try_except, py_bind.
  by rewrite Hbody.
Qed.

(** The three ways the body fails: no column "forecast" to drop, *)
Lemma body_raises_on_missing_column model_struct states tr :
  "forecast" ∉ columns states →
  predict_value_body model_struct states tr = (Raised (KeyError ["forecast"]), tr).
Proof.
  intros Hf. unfold predict_value_body, py_bind, lift.
  fold (dropped_labels model_struct states).
  by rewrite (df_drop_without_forecast _ _ Hf).
Qed.

(** an error of the inference engine, *)
Lemma body_raises_on_inference_error model_struct states tr e :
  "forecast" ∈ columns states →
  (∀ d, predict model_struct d = Raised e) →
  ∃ tr', predict_value_body model_struct states tr = (Raised e, tr').
Proof.
  intros Hf He. unfold predict_value_body, py_bind, lift.
  fold (dropped_labels model_struct states).
  rewrite (df_drop_with_forecast _ _ Hf).
  unfold emit, call_predict. rewrite He. by eexists.
Qed.

(** a prediction without the column "forecast". *)
Lemma body_raises_on_missing_prediction model_struct states tr :
  "forecast" ∈ columns states →
  (∀ d, ∃ p, predict model_struct d = Returned p ∧ "forecast" ∉ columns p) →
  ∃ tr', predict_value_body model_struct states tr =
         (Raised (KeyError ["forecast"]), tr').
Proof.
  intros Hf Hp. unfold predict_value_body, py_bind, lift.
  fold (dropped_labels model_struct states).
  rewrite (df_drop_with_forecast _ _ Hf).
  unfold emit, call_predict.
  destruct (Hp (filter (λ col, col.1 ≠ "forecast" ∧ col.1 ∈ nodes model_struct)
                       states)) as (p & -> & Hno).
  unfold df_getitem.
  destruct (list_find _ p) as [[i [l vs]]|] eqn:Hfind; [|by eexists].
  apply list_find_Some in Hfind as (Hi & Hl & _). simpl in Hl. subst l.
  destruct Hno. unfold columns. apply list_elem_of_fmap.
  exists ("forecast", vs). split; [done|]. by eapply list_elem_of_lookup_2.
Qed.
End PredictorProofs.

(** ** The error evaluator *)

Section EvaluatorProofs.
Context {V : Type} `{EqDecision V}.
Implicit Types (predicted actual real : list V) (tr : list (event V)).

Lemma length_roll {T} (a : list T) shift : length (roll a shift) = length a.
Proof. unfold roll. apply length_rotate. Qed.

(** Position [i] of [np.roll(a, 1)] holds [a[(i-1) mod n]]. *)
Lemma lookup_roll_1 {T} (a : list T) (i : nat) :
  i < length a →
  roll a 1 !! i = a !! Z.to_nat ((Z.of_nat i - 1) `mod` Z.of_nat (length a)).
Proof.
  intros Hi. unfold roll. rewrite lookup_rotate_r by done.
  f_equal. unfold rotate_nat_add. f_equal.
  rewrite Z2Nat.id by (apply Z.mod_pos_bound; lia).
  rewrite Zplus_mod_idemp_l. f_equal. lia.
Qed.

Lemma count_true_app bs1 bs2 :
  count_true (bs1 ++ bs2) = count_true bs1 + count_true bs2.
Proof. unfold count_true. by rewrite filter_app, length_app. Qed.

(** Counting the [True]s of an array is counting its [True] positions. *)
Lemma count_true_positions bs :
  count_true bs =
  length (filter (λ i : nat, bs !! i = Some true) (seq 0 (length bs))).
Proof.
  induction bs as [|b bs IH] using rev_ind; [done|].
  rewrite count_true_app, length_app, seq_app, filter_app, length_app.
  f_equal.
  - rewrite IH. f_equal. apply filter_ext_elem.
    intros i Hi. apply elem_of_seq in Hi.
    rewrite lookup_app_l by lia. done.
  - simpl. rewrite filter_cons, filter_nil.
    rewrite lookup_app_r, Nat.sub_diag by lia. simpl.
    unfold count_true. rewrite filter_cons, filter_nil.
    destruct b; repeat case_decide; simplify_eq; done.
Qed.

(** On arrays of one length [!=] compares position by position. *)
Lemma not_equal_same_length mismatch predicted actual :
  length predicted = length actual →
  not_equal mismatch actual (np_roll (Some predicted) 1) =
  Returned (BoolArray (zip_with ne actual (Some <$> roll predicted 1))).
Proof.
  intros Hlen. unfold not_equal, np_roll.
  rewrite length_fmap, length_roll.
  by rewrite decide_True.
Qed.

Lemma shifted_comparison_lookup predicted actual (i : nat) :
  length predicted = length actual → i < length actual →
  zip_with ne actual (Some <$> roll predicted 1) !! i = Some true ↔
  actual !! i ≠
  predicted !! Z.to_nat ((Z.of_nat i - 1) `mod` Z.of_nat (length actual)).
Proof.
  intros Hlen Hi.
  rewrite lookup_zip_with, list_lookup_fmap, lookup_roll_1 by lia.
  rewrite Hlen.
  destruct (lookup_lt_is_Some_2 actual i Hi) as [x ->].
  assert (Hj : Z.to_nat ((Z.of_nat i - 1) `mod` Z.of_nat (length actual))
               < length predicted).
  { pose proof (Z.mod_pos_bound (Z.of_nat i - 1) (Z.of_nat (length actual))).
    lia. }
  destruct (lookup_lt_is_Some_2 predicted _ Hj) as [y ->]. simpl.
  unfold ne. split.
  - intros [= Hb]. by apply bool_decide_eq_true in Hb.
  - intros Hne. f_equal. by apply bool_decide_eq_true.
Qed.

Lemma count_shifted_comparison predicted actual :
  length predicted = length actual →
  count_true (zip_with ne actual (Some <$> roll predicted 1)) =
  shifted_mismatches predicted actual.
Proof.
  intros Hlen. rewrite count_true_positions. unfold shifted_mismatches.
  rewrite length_zip_with_l_eq by (by rewrite length_fmap, length_roll).
  f_equal. apply filter_ext_elem.
  intros i Hi. apply elem_of_seq in Hi.
  apply shifted_comparison_lookup; [done|lia].
Qed.

Lemma shifted_mismatches_le predicted actual :
  (shifted_mismatches predicted actual ≤ length actual)%nat.
Proof.
  unfold shifted_mismatches.
  etrans; [apply length_filter|]. by rewrite length_seq.
Qed.

Lemma fraction_in_unit_interval (k n : nat) :
  (0 < n)%nat → (k ≤ n)%nat → (0 ≤ fraction k n ≤ 1)%Qc.
Proof.
  intros Hn Hk. unfold fraction.
  assert (Hpos : Z.pos (Pos.of_nat n) = Z.of_nat n).
  { destruct n; [lia|]. rewrite <- Pos.of_nat_succ. lia. }
  split.
  - change 0%Qc with (Q2Qc 0). unfold Qcle. simpl. apply Qred_le.
    unfold Qle. simpl. lia.
  - change 1%Qc with (Q2Qc 1). unfold Qcle. simpl. apply Qred_le.
    unfold Qle. simpl. lia.
Qed.

Lemma fraction_zero (n : nat) : fraction 0 n = 0%Qc.
Proof. unfold fraction. change 0%Qc with (Q2Qc 0). by apply Q2Qc_eq_iff. Qed.

Lemma np_mean_nonempty bs :
  bs ≠ [] → np_mean (BoolArray bs) = Real (fraction (count_true bs) (length bs)).
Proof. by destruct bs. Qed.

(** The statements under [try] stand or fall with the comparison. *)
Lemma calculate_error_body_run mismatch (pred_value : option (list V)) real tr :
  calculate_error_body mismatch pred_value real tr =
  match not_equal mismatch real (np_roll pred_value 1) with
  | Returned c =>
      (Returned (np_mean c),
       tr ++ [PrintError (times_100 (np_mean c));
              LogError (times_100 (np_mean c))])
  | Raised e => (Raised e, tr)
  end.
Proof.
  unfold calculate_error_body, py_bind, lift.
  destruct (not_equal mismatch real (np_roll pred_value 1)) as [c|e]; [|done].
  unfold emit, py_ret. by rewrite <- app_assoc.
Qed.

(** [calculate_error] never raises. *)
Lemma calculate_error_returns mismatch (pred_value : option (list V)) real tr :
  ∃ r tr', calculate_error mismatch pred_value real tr = (Returned r, tr').
Proof.
  unfold calculate_error, try_except, py_bind.
  rewrite calculate_error_body_run.
  destruct (not_equal mismatch real (np_roll pred_value 1)); by eexists _, _.
Qed.

Lemma calculate_error_same_length mismatch predicted actual tr :
  length predicted = length actual → actual ≠ [] →
  let error := fraction (shifted_mismatches predicted actual) (length actual) in
  calculate_error mismatch (Some predicted) actual tr =
    (Returned (Some (Real error)),
     tr ++ [PrintError (Real (error * Qc_of_Z 100));
            LogError (Real (error * Qc_of_Z 100))]).
Proof.
  intros Hlen Hne error. subst error.
  unfold calculate_error, try_except, py_bind.
  rewrite calculate_error_body_run, not_equal_same_length by done.
  assert (Hn : length (zip_with ne actual (Some <$> roll predicted 1))
               = length actual).
  { apply length_zip_with_l_eq. by rewrite length_fmap, length_roll. }
  rewrite np_mean_nonempty.
  2:{ intros Hnil. rewrite Hnil in Hn. by destruct actual. }
  by rewrite count_shifted_comparison, Hn.
Qed.

Lemma not_equal_unbroadcastable predicted actual :
  length predicted ≠ length actual →
  length predicted ≠ 1 → length actual ≠ 1 →
  not_equal MismatchRaises actual (np_roll (Some predicted) 1) =
  Raised (ValueError "operands could not be broadcast together").
Proof.
  intros Hlen Hp Ha. unfold not_equal, np_roll.
  rewrite decide_False by (rewrite length_fmap, length_roll; congruence).
  assert (Hr : length (Some <$> roll predicted 1) ≠ 1)
    by (by rewrite length_fmap, length_roll).
  destruct (Some <$> roll predicted 1) as [|y [|y' ys]];
    destruct actual as [|x [|x' xs]]; done.
Qed.

(** The amended C2.  On two sequences of one length [n ≥ 1],
    [calculate_error] returns the number of positions [i] with
    [actual[i] != predicted[(i-1) mod n]] divided by [n], a value in [0,1]. *)
Theorem calculate_error_is_shifted_fraction mismatch predicted actual tr :
  length predicted = length actual → actual ≠ [] →
  ∃ error : Qc,
    error = fraction (shifted_mismatches predicted actual) (length actual) ∧
    calculate_error mismatch (Some predicted) actual tr =
      (Returned (Some (Real error)),
       tr ++ [PrintError (Real (error * Qc_of_Z 100));
              LogError (Real (error * Qc_of_Z 100))]) ∧
    (0 ≤ error ≤ 1)%Qc.
Proof.
  intros Hlen Hne. eexists. split; [reflexivity|]. split.
  - by apply calculate_error_same_length.
  - apply fraction_in_unit_interval.
    + destruct actual; [done|simpl; lia].
    + apply shifted_mismatches_le.
Qed.

(** C9.  When [predicted] is [actual] rotated forward by one position
    ([predicted[i] = actual[(i+1) mod n]], [n ≥ 1]) the error is exactly 0. *)
Theorem rotated_prediction_has_zero_error mismatch predicted actual tr :
  actual ≠ [] → length predicted = length actual →
  (∀ i : nat, i < length actual →
              predicted !! i = actual !! ((i + 1) `mod` length actual)%nat) →
  calculate_error mismatch (Some predicted) actual tr =
    (Returned (Some (Real 0%Qc)),
     tr ++ [PrintError (Real 0%Qc); LogError (Real 0%Qc)]).
Proof.
  intros Hne Hlen Hrot.
  rewrite calculate_error_same_length by done.
  assert (Hn : 0 < length actual) by (destruct actual; [done|simpl; lia]).
  assert (Hzero : shifted_mismatches predicted actual = 0).
  { unfold shifted_mismatches.
    rewrite (filter_none _ (seq 0 (length actual))); [done|].
    intros i Hi Hmis. apply elem_of_seq in Hi. apply Hmis.
    pose proof (Z.mod_pos_bound (Z.of_nat i - 1) (Z.of_nat (length actual))) as Hb.
    rewrite Hrot by lia. f_equal.
    apply Nat2Z.inj. rewrite Nat2Z.inj_mod, Nat2Z.inj_add, Z2Nat.id by lia.
    rewrite Zplus_mod_idemp_l. replace (Z.of_nat i - 1 + Z.of_nat 1)%Z
      with (Z.of_nat i) by lia.
    rewrite Z.mod_small by lia. done. }
  by rewrite Hzero, fraction_zero, Qcmult_0_l.
Qed.

(** C10.  On every input, an absent [pred_value] and sequences of any two
    lengths included, [calculate_error] raises nothing: either the
    comparison succeeds and the mean of its result is returned, or the
    comparison raises, the failure is logged and [None] is returned. *)
Theorem calculate_error_never_raises mismatch (pred_value : option (list V))
    real tr :
  (∃ c, not_equal mismatch real (np_roll pred_value 1) = Returned c ∧
        calculate_error mismatch pred_value real tr =
          (Returned (Some (np_mean c)),
           tr ++ [PrintError (times_100 (np_mean c));
                  LogError (times_100 (np_mean c))])) ∨
  (∃ e, not_equal mismatch real (np_roll pred_value 1) = Raised e ∧
        calculate_error mismatch pred_value real tr =
          (Returned None, tr ++ [LogCalculateFailed e])).
Proof.
  unfold calculate_error, try_except, py_bind.
  rewrite calculate_error_body_run.
  destruct (not_equal mismatch real (np_roll pred_value 1)) as [c|e].
  - left. by exists c.
  - right. by exists e.
Qed.

(** The amended C5.  On sequences of different lengths [calculate_error]
    raises nothing to its caller, whatever NumPy does with the shapes.  When
    neither length is 1 and NumPy's comparison raises [ValueError],
    [calculate_error] catches it, logs it and returns [None]: no number is
    returned. *)
Theorem mismatched_lengths_are_logged predicted actual tr :
  length predicted ≠ length actual →
  (∀ mismatch, ∃ r tr',
     calculate_error mismatch (Some predicted) actual tr = (Returned r, tr')) ∧
  (length predicted ≠ 1 → length actual ≠ 1 →
   calculate_error MismatchRaises (Some predicted) actual tr =
     (Returned None,
      tr ++ [LogCalculateFailed
               (ValueError "operands could not be broadcast together")])).
Proof.
  intros Hlen. split.
  - intros mismatch. apply calculate_error_returns.
  - intros Hp Ha. unfold calculate_error, try_except, py_bind.
    rewrite calculate_error_body_run.
    by rewrite not_equal_unbroadcastable.
Qed.
End EvaluatorProofs.

(** ** Further properties of the model-selection grid *)

Section SelectorFurther.
Context {V : Type}.
Variable estimate : DataFrame V → ScoringMethod → Z → DAG.

Local Abbreviation find_best_model := (find_best_model estimate).
Local Abbreviation cell_score := (cell_score estimate).
Local Abbreviation candidate := (candidate estimate).
Local Abbreviation visit := (visit estimate).
Local Abbreviation best_after := (best_after estimate).

Lemma grid_app scoring_methods max_iters1 max_iters2 :
  grid scoring_methods (max_iters1 ++ max_iters2) =
  grid scoring_methods max_iters1 ++ grid scoring_methods max_iters2.
Proof. unfold grid. apply bind_app. Qed.

Lemma grid_empty scoring_methods max_iters :
  grid scoring_methods max_iters = [] ↔ scoring_methods = [] ∨ max_iters = [].
Proof.
  split.
  - destruct scoring_methods, max_iters; try done; auto.
  - intros [-> | ->]; [|done]. unfold grid.
    induction max_iters; [done|]. by rewrite bind_cons.
Qed.

Lemma length_grid scoring_methods max_iters :
  length (grid scoring_methods max_iters) =
  length max_iters * length scoring_methods.
Proof.
  unfold grid. induction max_iters as [|b bs IH]; [done|].
  rewrite bind_cons, length_app, length_fmap. simpl. by rewrite <- IH.
Qed.

(** After any cells the variables are the sentinels or a candidate. *)
Lemma best_after_cases train_data cs :
  (cs = [] ∧ best_after train_data cs = initial_best) ∨
  (∃ c, c ∈ cs ∧ best_after train_data cs = candidate train_data c ∧
        ∀ c', c' ∈ cs → (cell_score train_data c' ≤ cell_score train_data c)%Qc).
Proof.
  destruct cs as [|x cs]; [by left|]. right.
  destruct (best_after_first_max estimate train_data (x :: cs))
    as (pre & c & post & Hcs & Hbest & Hpre & Hpost); [done|].
  exists c. split_and!; [|done|].
  - rewrite Hcs. apply elem_of_app. right. left.
  - intros c' Hc'. rewrite Hcs in Hc'.
    apply elem_of_app in Hc' as [Hc'|Hc'].
    { apply Qclt_le_weak. by apply Hpre. }
    apply elem_of_cons in Hc' as [->|Hc']; [apply Qcle_refl|by apply Hpost].
Qed.

(** Cells that do not beat the current best leave it alone. *)
Lemma foldl_visit_absorb train_data best cs :
  (∀ c, c ∈ cs →
        float_gt (Real (cell_score train_data c)) (best_score best) = false) →
  foldl (visit train_data) best cs = best.
Proof.
  induction cs as [|c cs IH]; intros Hcs; [done|]. simpl.
  rewrite (visit_not_higher estimate); [|apply Hcs; left].
  apply IH. intros c' Hc'. apply Hcs. by right.
Qed.

Lemma float_gt_trans (x y z : pyfloat) :
  float_gt x y = true → float_gt y z = true → float_gt x z = true.
Proof.
  destruct x as [|a|], y as [|b|], z as [|c|]; simpl; try done.
  rewrite !bool_decide_eq_true. intros Hba Hcb. by eapply Qclt_trans.
Qed.

Lemma float_gt_through (s a : Qc) (z : pyfloat) :
  float_gt (Real s) z = true → float_gt (Real s) (Real a) = false →
  float_gt (Real a) z = true.
Proof.
  destruct z as [|r|]; simpl; try done.
  rewrite !bool_decide_eq_true, bool_decide_eq_false.
  intros Hrs Has. eapply Qclt_le_trans; [done|]. by apply Qcnot_lt_le.
Qed.

(** Visiting cells from any state is visiting them from the sentinels and
    then comparing once. *)
Lemma foldl_visit_merge train_data best cs :
  foldl (visit train_data) best cs =
  if float_gt (best_score (best_after train_data cs)) (best_score best)
  then best_after train_data cs else best.
Proof.
  induction cs as [|x cs IH] using rev_ind.
  { simpl. by destruct (best_score best). }
  rewrite foldl_app. simpl. rewrite IH, (best_after_snoc estimate).
  destruct (best_after_cases train_data cs)
    as [[-> ->]|(c & _ & -> & _)]; [done|].
  destruct (float_gt (Real (cell_score train_data x))
              (best_score (candidate train_data c))) eqn:Hxc.
  - rewrite (visit_higher estimate train_data (candidate train_data c) x Hxc).
    destruct (float_gt (best_score (candidate train_data c)) (best_score best))
      eqn:Hcb.
    + rewrite (visit_higher estimate _ _ _ Hxc).
      change (best_score (candidate train_data x))
        with (Real (cell_score train_data x)).
      by rewrite (float_gt_trans _ _ _ Hxc Hcb).
    + done.
  - rewrite (visit_not_higher estimate train_data (candidate train_data c) x Hxc).
    destruct (float_gt (best_score (candidate train_data c)) (best_score best))
      eqn:Hcb.
    + by rewrite (visit_not_higher estimate _ _ _ Hxc).
    + apply (visit_not_higher estimate).
      destruct (float_gt (Real (cell_score train_data x)) (best_score best))
        eqn:Hxb; [|done].
      change (best_score (candidate train_data c))
        with (Real (cell_score train_data c)) in Hxc, Hcb.
      by rewrite (float_gt_through _ _ _ Hxb Hxc) in Hcb.
Qed.

(** X1.  The returned structure is [None] exactly when the grid is empty
    (no budget or no scoring method); the whole tuple is then
    [(None, None, -inf, None)] and nothing is printed. *)
Theorem find_best_model_none_iff_empty train_data scoring_methods max_iters
    (tr : list (event V)) :
  ((find_best_model train_data scoring_methods max_iters tr).1 =
     Returned (None, None, NegInf, None) ∧
   (find_best_model train_data scoring_methods max_iters tr).2 = tr ↔
   scoring_methods = [] ∨ max_iters = []) ∧
  (scoring_methods ≠ [] → max_iters ≠ [] →
   ∃ g name s b,
     (find_best_model train_data scoring_methods max_iters tr).1 =
       Returned (Some g, Some name, Real s, Some b)).
Proof.
  rewrite (find_best_model_run estimate). simpl. split; [split|].
  - intros [Hret _]. apply grid_empty.
    destruct (best_after_cases train_data (grid scoring_methods max_iters))
      as [[Hnil _]|(c & _ & Hc & _)]; [done|].
    rewrite Hc in Hret. done.
  - intros Hempty. apply grid_empty in Hempty. rewrite Hempty. simpl.
    by rewrite app_nil_r.
  - intros Hsm Hmi.
    destruct (best_after_cases train_data (grid scoring_methods max_iters))
      as [[Hnil _]|(c & _ & Hc & _)].
    { by destruct (grid_nonempty scoring_methods max_iters). }
    rewrite Hc. by eexists _, _, _, _.
Qed.

(** X2.  Every cell is evaluated once, budgets outermost: the run appends
    to the trace, for each budget in order and each method in insertion
    order, the training line and the score line of that cell, two lines per
    cell whatever the best so far. *)
Theorem find_best_model_trace train_data scoring_methods max_iters
    (tr : list (event V)) :
  (find_best_model train_data scoring_methods max_iters tr).2 =
    tr ++ (max_iter ← max_iters;
           item ← scoring_methods;
           [PrintTraining item.1 max_iter;
            PrintScore item.1 max_iter
              (score item.2 (estimate train_data item.2 max_iter))]) ∧
  length ((find_best_model train_data scoring_methods max_iters tr).2) =
    length tr + 2 * (length max_iters * length scoring_methods).
Proof.
  rewrite (find_best_model_run estimate). simpl. split.
  - f_equal. unfold grid.
    induction max_iters as [|max_iter rest IH]; [done|].
    rewrite !bind_cons, bind_app, IH. f_equal.
    clear IH. induction scoring_methods as [|item more IH]; [done|].
    rewrite fmap_cons, !bind_cons, IH. done.
  - rewrite length_app. f_equal.
    rewrite <- length_grid.
    induction (grid scoring_methods max_iters) as [|c cs IH]; [done|].
    rewrite bind_cons, length_app, IH. simpl. lia.
Qed.

(** X3.  Splitting the budgets: the result on [max_iters1 ++ max_iters2] is
    the result on [max_iters1] unless the result on [max_iters2] has a
    strictly higher score. *)
Theorem find_best_model_split train_data scoring_methods max_iters1 max_iters2
    (tr : list (event V)) :
  ∃ t1 t2,
    (find_best_model train_data scoring_methods max_iters1 tr).1 = Returned t1 ∧
    (find_best_model train_data scoring_methods max_iters2 tr).1 = Returned t2 ∧
    (find_best_model train_data scoring_methods (max_iters1 ++ max_iters2) tr).1 =
      Returned (merge_best t1 t2).
Proof.
  rewrite !(find_best_model_run estimate). simpl.
  eexists _, _. split; [done|]. split; [done|]. f_equal.
  rewrite grid_app. unfold best_after at 1. rewrite foldl_app.
  rewrite foldl_visit_merge. unfold merge_best, returned_score, as_tuple. simpl.
  fold (best_after train_data (grid scoring_methods max_iters1)).
  by destruct (float_gt _ _).
Qed.

(** X4.  Budgets that were already tried change nothing: when every budget
    of [again] occurs in [max_iters], the result on [max_iters ++ again] is
    the result on [max_iters]. *)
Theorem find_best_model_repeat train_data scoring_methods max_iters again
    (tr : list (event V)) :
  (∀ b, b ∈ again → b ∈ max_iters) →
  (find_best_model train_data scoring_methods (max_iters ++ again) tr).1 =
  (find_best_model train_data scoring_methods max_iters tr).1.
Proof.
  intros Hsub. rewrite !(find_best_model_run estimate). simpl. do 2 f_equal.
  rewrite grid_app. unfold best_after at 1. rewrite foldl_app.
  fold (best_after train_data (grid scoring_methods max_iters)).
  apply foldl_visit_absorb. intros c Hc.
  assert (Hin : c ∈ grid scoring_methods max_iters).
  { apply elem_of_grid in Hc as [Hb Hm]. apply elem_of_grid. auto. }
  destruct (best_after_cases train_data (grid scoring_methods max_iters))
    as [[Hnil _]|(c0 & _ & -> & Hmax)].
  { rewrite Hnil in Hin. inversion Hin. }
  simpl. apply bool_decide_eq_false. apply Qcle_not_lt. by apply Hmax.
Qed.

Lemma best_after_score_monotone train_data (cells : list Cell) (k k' : nat) :
  (k ≤ k')%nat →
  best_after train_data (take k' cells) = best_after train_data (take k cells) ∨
  float_gt (best_score (best_after train_data (take k' cells)))
           (best_score (best_after train_data (take k cells))) = true.
Proof.
  intros Hk.
  assert (Htake : take k' cells = take k cells ++ take (k' - k) (drop k cells)).
  { rewrite <- (take_drop k (take k' cells)) at 1.
    rewrite take_take, take_drop_commute.
    by replace (k `min` k') with k by lia; replace (k + (k' - k)) with k' by lia. }
  rewrite Htake. unfold best_after at 1 3. rewrite foldl_app.
  rewrite foldl_visit_merge.
  fold (best_after train_data (take k cells)).
  fold (best_after train_data (take (k' - k) (drop k cells))).
  destruct (float_gt _ _) eqn:Hgt; [by right|by left].
Qed.

(** X5.  The best score never decreases during the iteration: the loop
    body run over the first [k'] cells of the grid leaves the variables it
    left after the first [k ≤ k'] cells, or variables of a strictly greater
    score; and the tuple [find_best_model] returns is the one held after
    [k] cells, or has a strictly greater score. *)
Theorem best_score_never_decreases train_data scoring_methods max_iters
    (tr : list (event V)) (k k' : nat) :
  (k ≤ k')%nat →
  let cells := grid scoring_methods max_iters in
  let sentinels := {| best_model := None; best_score := NegInf;
                      best_method := None; best_iter := None |} in
  ∃ best best' tr_k tr_k' result,
    run_cells estimate train_data (take k cells) sentinels tr =
      (Returned best, tr_k) ∧
    run_cells estimate train_data (take k' cells) sentinels tr =
      (Returned best', tr_k') ∧
    (find_best_model train_data scoring_methods max_iters tr).1 =
      Returned result ∧
    (best' = best ∨ float_gt (best_score best') (best_score best) = true) ∧
    (result = (best_model best, best_method best, best_score best,
               best_iter best) ∨
     float_gt (returned_score result) (best_score best) = true).
Proof.
  intros Hk cells sentinels.
  rewrite !(run_cells_run estimate), (find_best_model_run estimate).
  eexists _, _, _, _, _. split; [done|]. split; [done|]. split; [done|].
  split.
  - apply (best_after_score_monotone train_data cells k k' Hk).
  - destruct (best_after_score_monotone train_data cells k
                (k `max` length cells)) as [Heq|Hgt]; [lia|..].
    + left. rewrite take_ge in Heq by lia.
      subst cells. by rewrite Heq.
    + right. rewrite take_ge in Hgt by lia. done.
Qed.
End SelectorFurther.

(** ** Further properties of the predictor *)

Section PredictorFurther.
Context {V : Type}.
Implicit Types (model_struct : BayesianNetwork V) (states : DataFrame V).
Implicit Types (tr : list (event V)).

Lemma df_getitem_missing (df : DataFrame V) key :
  key ∉ columns df → df_getitem df key = Raised (KeyError [key]).
Proof.
  intros Hkey. unfold df_getitem.
  destruct (list_find _ df) as [[i [l vs]]|] eqn:Hfind; [|done].
  apply list_find_Some in Hfind as (Hi & Hl & _). simpl in Hl. subst l.
  destruct Hkey. unfold columns. apply list_elem_of_fmap.
  exists (key, vs). split; [done|]. by eapply list_elem_of_lookup_2.
Qed.

(** What the statements under [try] do once [drop] has succeeded. *)
Lemma predict_value_with_forecast model_struct states tr :
  "forecast" ∈ columns states →
  predict_value model_struct states tr =
  let data_new := kept_columns model_struct states in
  let tr1 := tr ++ [LogDataNewColumns (columns data_new);
                    LogModelNodes (nodes model_struct);
                    CallPredict data_new] in
  match predict model_struct data_new with
  | Returned prediction =>
      match df_getitem prediction "forecast" with
      | Returned pred_value =>
          (Returned (Some pred_value), tr1 ++ [PrintPredicted pred_value])
      | Raised e => (Returned None, tr1 ++ [LogPredictFailed e])
      end
  | Raised e => (Returned None, tr1 ++ [LogPredictFailed e])
  end.
Proof.
  intros Hf. unfold predict_value, try_except, predict_value_body, py_bind, lift.
  fold (dropped_labels model_struct states).
  rewrite (df_drop_with_forecast _ _ Hf). fold (kept_columns model_struct states).
  unfold emit, call_predict, py_ret. simpl.
  rewrite <- !app_assoc. simpl.
  destruct (predict model_struct _) as [prediction|e]; [|done].
  by destruct (df_getitem prediction "forecast").
Qed.

Lemma predict_value_no_forecast model_struct states tr :
  "forecast" ∉ columns states →
  predict_value model_struct states tr =
    (Returned None, tr ++ [LogPredictFailed (KeyError ["forecast"])]).
Proof.
  intros Hf. unfold predict_value, try_except, py_bind.
  by rewrite (body_raises_on_missing_column _ _ _ Hf).
Qed.

(** X6.  A query table without a column "forecast" is refused before any
    inference: [predict_value] returns [None], logs the [KeyError] of
    [drop], and the inference engine is not called, whatever the model. *)
Theorem predict_value_without_label model_struct states tr :
  "forecast" ∉ columns states →
  predict_value model_struct states tr =
    (Returned None, tr ++ [LogPredictFailed (KeyError ["forecast"])]) ∧
  inference_inputs ((predict_value model_struct states tr).2) =
    inference_inputs tr.
Proof.
  intros Hf. rewrite (predict_value_no_forecast _ _ _ Hf). split; [done|].
  unfold inference_inputs. simpl. rewrite omap_app. simpl. by rewrite app_nil_r.
Qed.

(** X7.  The prediction does not depend on the labels of the query, nor on
    its columns outside the model: two query tables that both carry a
    column "forecast" and agree on the columns that are model nodes other
    than "forecast" give the same result and the same trace. *)
Theorem predict_value_ignores_labels model_struct states1 states2 tr :
  "forecast" ∈ columns states1 → "forecast" ∈ columns states2 →
  kept_columns model_struct states1 = kept_columns model_struct states2 →
  predict_value model_struct states1 tr = predict_value model_struct states2 tr.
Proof.
  intros Hf1 Hf2 Hkept.
  rewrite (predict_value_with_forecast _ _ _ Hf1),
          (predict_value_with_forecast _ _ _ Hf2).
  by rewrite Hkept.
Qed.

(** X8.  [predict_value] returns values exactly when the query has a column
    "forecast", the inference engine returns a table for the kept columns,
    and that table has a column "forecast": the values returned are that
    column's, and the trace gains the two log records, the call and the
    printed values. *)
Theorem predict_value_succeeds_iff model_struct states tr pred_value tr' :
  predict_value model_struct states tr = (Returned (Some pred_value), tr') ↔
  "forecast" ∈ columns states ∧
  ∃ prediction,
    predict model_struct (kept_columns model_struct states) = Returned prediction ∧
    df_getitem prediction "forecast" = Returned pred_value ∧
    tr' = tr ++ [LogDataNewColumns (columns (kept_columns model_struct states));
                 LogModelNodes (nodes model_struct);
                 CallPredict (kept_columns model_struct states);
                 PrintPredicted pred_value].
Proof.
  destruct (decide ("forecast" ∈ columns states)) as [Hf|Hf].
  - rewrite (predict_value_with_forecast _ _ _ Hf). simpl. split.
    + destruct (predict model_struct _) as [prediction|e]; [|done].
      destruct (df_getitem prediction "forecast") as [v|e] eqn:Hget; [|done].
      intros [= -> <-]. split; [done|]. exists prediction.
      split_and!; [done..|]. by rewrite <- app_assoc.
    + intros (_ & prediction & -> & -> & ->). by rewrite <- app_assoc.
  - rewrite (predict_value_no_forecast _ _ _ Hf). split; [done|].
    by intros [? _].
Qed.

(** X9.  With an inference engine that returns columns for model nodes
    only, a model without a node "forecast" never yields a prediction:
    [predict_value] returns [None] on every query. *)
Theorem predict_value_needs_forecast_node model_struct states tr :
  (∀ d prediction, predict model_struct d = Returned prediction →
                   ∀ l, l ∈ columns prediction → l ∈ nodes model_struct) →
  "forecast" ∉ nodes model_struct →
  (predict_value model_struct states tr).1 = Returned None.
Proof.
  intros Hengine Hnode.
  destruct (decide ("forecast" ∈ columns states)) as [Hf|Hf].
  - rewrite (predict_value_with_forecast _ _ _ Hf). simpl.
    destruct (predict model_struct _) as [prediction|e] eqn:Hp; [|done].
    rewrite df_getitem_missing; [done|].
    intros Hin. apply Hnode. by eapply Hengine.
  - by rewrite (predict_value_no_forecast _ _ _ Hf).
Qed.
End PredictorFurther.

(** ** Further properties of the error evaluator *)

Section EvaluatorFurther.
Context {V : Type} `{EqDecision V}.
Implicit Types (predicted actual real xs : list V) (tr : list (event V)).

Lemma calculate_error_of_comparison_run mismatch
    (pred_value : option (list V)) real tr c :
  not_equal mismatch real (np_roll pred_value 1) = Returned c →
  calculate_error mismatch pred_value real tr =
    (Returned (Some (np_mean c)),
     tr ++ [PrintError (times_100 (np_mean c)); LogError (times_100 (np_mean c))]).
Proof.
  intros Hc. unfold calculate_error, try_except, py_bind.
  by rewrite calculate_error_body_run, Hc.
Qed.

Lemma calculate_error_of_comparison mismatch (pred_value : option (list V))
    real tr c :
  not_equal mismatch real (np_roll pred_value 1) = Returned c →
  (calculate_error mismatch pred_value real tr).1 = Returned (Some (np_mean c)).
Proof.
  intros Hc. by rewrite (calculate_error_of_comparison_run _ _ _ _ _ Hc).
Qed.

Lemma count_true_le bs : (count_true bs ≤ length bs)%nat.
Proof. apply length_filter. Qed.

Lemma count_true_all {A} (f : A → bool) (l : list A) :
  (∀ x, x ∈ l → f x = true) → count_true (f <$> l) = length l.
Proof.
  induction l as [|a l IH]; intros Hl; [done|].
  rewrite fmap_cons. unfold count_true in *.
  rewrite filter_cons_True by (apply Hl; left). simpl.
  f_equal. apply IH. intros x Hx. apply Hl. by right.
Qed.

Lemma count_true_fmap {A} (f : A → bool) (P : A → Prop)
    `{!∀ x, Decision (P x)} (l : list A) :
  (∀ x, f x = true ↔ P x) →
  count_true (f <$> l) = length (filter P l).
Proof.
  intros Hf. induction l as [|a l IH]; [done|].
  rewrite fmap_cons. unfold count_true in *. rewrite !filter_cons.
  destruct (decide (f a = true)) as [Ha|Ha], (decide (P a)) as [HP|HP];
    simpl; rewrite ?IH; try done.
  - destruct HP. by apply Hf.
  - destruct Ha. by apply Hf.
Qed.

Lemma fraction_full (n : nat) : (0 < n)%nat → fraction n n = 1%Qc.
Proof.
  intros Hn. unfold fraction. change 1%Qc with (Q2Qc 1). apply Q2Qc_eq_iff.
  unfold Qeq. simpl.
  assert (Z.pos (Pos.of_nat n) = Z.of_nat n).
  { destruct n; [lia|]. rewrite <- Pos.of_nat_succ. lia. }
  lia.
Qed.

Lemma fraction_zero_inv (k n : nat) : fraction k n = 0%Qc → k = 0.
Proof.
  unfold fraction. change 0%Qc with (Q2Qc 0). rewrite Q2Qc_eq_iff.
  unfold Qeq. simpl. lia.
Qed.

(** The mean of a comparison is [nan] on the empty array and a value of
    [0,1] otherwise. *)
Lemma np_mean_range c :
  (c = BoolArray [] ∧ np_mean c = NaN) ∨ in_unit_interval (np_mean c).
Proof.
  destruct c as [[|b bs]|b]; [by left|right..].
  - rewrite np_mean_nonempty by done. simpl.
    apply fraction_in_unit_interval; [simpl; lia|apply count_true_le].
  - destruct b; simpl; split; done.
Qed.

(** X10.  Whatever the inputs, a returned error is a value of [0,1] or
    [nan], and [nan] only when [real] is empty or [pred_value] is an empty
    sequence. *)
Theorem calculate_error_range mismatch (pred_value : option (list V)) real tr
    (error : pyfloat) :
  (calculate_error mismatch pred_value real tr).1 = Returned (Some error) →
  in_unit_interval error ∨
  (error = NaN ∧ (real = [] ∨ pred_value = Some [])).
Proof.
  unfold calculate_error, try_except, py_bind.
  rewrite calculate_error_body_run.
  destruct (not_equal mismatch real (np_roll pred_value 1)) as [c|e] eqn:Hc;
    [|done].
  simpl. intros [= <-].
  destruct (np_mean_range c) as [[-> Hnan]|Hin]; [|by left].
  right. split; [done|]. revert Hc. unfold not_equal, np_roll.
  destruct pred_value as [xs|].
  - assert (Hlen : length (Some <$> roll xs 1) = length xs)
      by (by rewrite length_fmap, length_roll).
    destruct (decide (length real = length (Some <$> roll xs 1))) as [Heq|Hne].
    + intros [= Hz]. left. apply (f_equal length) in Hz.
      rewrite length_zip_with_l_eq in Hz by done. by destruct real.
    + destruct (Some <$> roll xs 1) as [|y [|y' ys]] eqn:Hys,
        real as [|x [|x' real']]; simpl in *; try done;
        first [ by destruct mismatch
              | by left
              | intros _; right; destruct xs; [done|simpl in Hlen; lia] ].
  - intros [= Hz]. left. by destruct real.
Qed.

(** X11.  An absent prediction is not an error for [calculate_error]: every
    actual value differs from [None], so on a non-empty [real] the error
    returned is exactly 1. *)
Theorem calculate_error_absent_prediction mismatch real tr :
  real ≠ [] →
  calculate_error mismatch None real tr =
    (Returned (Some (Real 1%Qc)),
     tr ++ [PrintError (Real (Qc_of_Z 100)); LogError (Real (Qc_of_Z 100))]).
Proof.
  intros Hne.
  rewrite (calculate_error_of_comparison_run _ _ _ _
             (BoolArray ((λ x, ne x None) <$> real))) by done.
  rewrite np_mean_nonempty by (by destruct real).
  rewrite count_true_all, length_fmap by done.
  rewrite fraction_full by (destruct real; [done|simpl; lia]).
  simpl. by rewrite Qcmult_1_l.
Qed.

(** X12.  A prediction of length 1 is broadcast: against an [actual] of
    two or more values the comparison raises nothing under either NumPy
    behaviour, and the error is the fraction of actual values that differ
    from the single predicted value. *)
Theorem calculate_error_broadcasts_singleton mismatch (p : V) actual tr :
  (1 < length actual)%nat →
  (calculate_error mismatch (Some [p]) actual tr).1 =
    Returned (Some (Real (fraction (length (filter (λ x, x ≠ p) actual))
                                   (length actual)))).
Proof.
  intros Hlen.
  rewrite (calculate_error_of_comparison _ _ _ _
             (BoolArray ((λ x, ne x (Some p)) <$> actual))).
  - rewrite np_mean_nonempty by (destruct actual; [simpl in Hlen; lia|done]).
    rewrite length_fmap. do 3 f_equal.
    rewrite (count_true_fmap _ (λ x, x ≠ p)); [done|]. intros x. unfold ne.
    rewrite bool_decide_eq_true. split; [congruence|].
    intros Hx [= ->]. done.
  - unfold not_equal, np_roll.
    change (Some <$> roll [p] 1) with [Some p].
    rewrite decide_False by (simpl; lia).
    by destruct actual as [|x [|x' xs]].
Qed.

(** X13.  Under the older NumPy behaviour a length mismatch is not a
    failure at all: on sequences of different lengths, neither of length 1,
    the error returned is exactly 1 and no failure is logged. *)
Theorem mismatched_lengths_legacy_numpy predicted actual tr :
  length predicted ≠ length actual →
  length predicted ≠ 1 → length actual ≠ 1 →
  calculate_error MismatchIsTrue (Some predicted) actual tr =
    (Returned (Some (Real 1%Qc)),
     tr ++ [PrintError (Real (Qc_of_Z 100)); LogError (Real (Qc_of_Z 100))]).
Proof.
  intros Hlen Hp Ha.
  assert (Hc : not_equal MismatchIsTrue actual (np_roll (Some predicted) 1) =
               Returned (BoolScalar true)).
  { unfold not_equal, np_roll.
    rewrite decide_False by (rewrite length_fmap, length_roll; congruence).
    assert (Hr : length (Some <$> roll predicted 1) ≠ 1)
      by (by rewrite length_fmap, length_roll).
    destruct (Some <$> roll predicted 1) as [|y [|y' ys]];
      destruct actual as [|x [|x' xs]]; done. }
  rewrite (calculate_error_of_comparison_run _ _ _ _ _ Hc).
  simpl. by rewrite Qcmult_1_l.
Qed.
End EvaluatorFurther.

(** ** The shift convention *)

Section ShiftConvention.
Context {V : Type} `{EqDecision V}.
Implicit Types (predicted actual xs : list V) (tr : list (event V)).

(** The position before [i] on a circle of [n] positions. *)
Local Abbreviation before n i :=
  (Z.to_nat ((Z.of_nat i - 1) `mod` Z.of_nat n)).

Lemma before_lt (n i : nat) : (0 < n)%nat → (before n i < n)%nat.
Proof.
  intros Hn. pose proof (Z.mod_pos_bound (Z.of_nat i - 1) (Z.of_nat n)). lia.
Qed.

Lemma before_succ (n i : nat) : (S i < n)%nat → before n (S i) = i.
Proof.
  intros Hi. replace (Z.of_nat (S i) - 1)%Z with (Z.of_nat i) by lia.
  rewrite Z.mod_small by lia. lia.
Qed.

Lemma before_after (n i : nat) :
  (i < n)%nat → before n ((i + 1) `mod` n) = i.
Proof.
  intros Hi. rewrite Nat2Z.inj_mod, Nat2Z.inj_add.
  rewrite Zminus_mod_idemp_l.
  replace (Z.of_nat i + Z.of_nat 1 - 1)%Z with (Z.of_nat i) by lia.
  rewrite Z.mod_small by lia. lia.
Qed.

Lemma after_before (n i : nat) :
  (i < n)%nat → ((before n i + 1) `mod` n)%nat = i.
Proof.
  intros Hi.
  pose proof (Z.mod_pos_bound (Z.of_nat i - 1) (Z.of_nat n)) as Hb.
  apply Nat2Z.inj. rewrite Nat2Z.inj_mod, Nat2Z.inj_add, Z2Nat.id by lia.
  rewrite Zplus_mod_idemp_l.
  replace (Z.of_nat i - 1 + Z.of_nat 1)%Z with (Z.of_nat i) by lia.
  rewrite Z.mod_small by lia. done.
Qed.

Lemma shifted_mismatches_zero_iff predicted actual :
  shifted_mismatches predicted actual = 0 ↔
  ∀ i : nat, (i < length actual)%nat →
             actual !! i = predicted !! before (length actual) i.
Proof.
  unfold shifted_mismatches. split.
  - intros Hzero i Hi.
    destruct (decide (actual !! i = predicted !! before (length actual) i))
      as [Heq|Hne]; [done|].
    apply length_zero_iff_nil in Hzero.
    assert (Hin : i ∈ filter
              (λ i : nat, actual !! i ≠ predicted !! before (length actual) i)
              (seq 0 (length actual))).
    { apply list_elem_of_filter. split; [done|]. apply elem_of_seq. lia. }
    rewrite Hzero in Hin. inversion Hin.
  - intros Hall. rewrite filter_none; [done|].
    intros i Hi Hne. apply elem_of_seq in Hi. apply Hne, Hall. lia.
Qed.

Lemma returned_real_inj (a b : Qc) :
  Returned (Some (Real a)) = Returned (Some (Real b)) → a = b.
Proof.
  intros Heq.
  exact (f_equal (λ o, match o with
                       | Returned (Some (Real q)) => q
                       | _ => a
                       end) Heq).
Qed.

Lemma zero_error_iff_no_mismatch mismatch predicted actual tr :
  length predicted = length actual → actual ≠ [] →
  (calculate_error mismatch (Some predicted) actual tr).1 =
    Returned (Some (Real 0%Qc)) ↔
  shifted_mismatches predicted actual = 0.
Proof.
  intros Hlen Hne. rewrite calculate_error_same_length by done.
  cbn [fst]. split.
  - intros Hz%returned_real_inj. by apply fraction_zero_inv in Hz.
  - intros ->. by rewrite fraction_zero.
Qed.

(** X14.  The error is 0 exactly when [predicted] is [actual] rotated
    forward by one position: on two sequences of one length [n ≥ 1],
    [calculate_error] returns 0 if and only if
    [predicted[i] = actual[(i+1) mod n]] at every position. *)
Theorem zero_error_iff_rotated mismatch predicted actual tr :
  length predicted = length actual → actual ≠ [] →
  (calculate_error mismatch (Some predicted) actual tr).1 =
    Returned (Some (Real 0%Qc)) ↔
  ∀ i : nat, (i < length actual)%nat →
             predicted !! i = actual !! ((i + 1) `mod` length actual)%nat.
Proof.
  intros Hlen Hne.
  assert (Hn : (0 < length actual)%nat) by (destruct actual; [done|simpl; lia]).
  rewrite zero_error_iff_no_mismatch, shifted_mismatches_zero_iff by done.
  split; intros Hall i Hi.
  - rewrite Hall by (apply Nat.mod_upper_bound; lia).
    by rewrite before_after.
  - rewrite Hall by (by apply before_lt).
    by rewrite after_before.
Qed.

(** X15.  A perfect prediction scores 0 only on a constant sequence: for a
    non-empty [xs], [calculate_error] on [xs] against itself returns 0
    exactly when all the values of [xs] are equal. *)
Theorem self_error_zero_iff_constant mismatch xs tr :
  xs ≠ [] →
  (calculate_error mismatch (Some xs) xs tr).1 = Returned (Some (Real 0%Qc)) ↔
  ∀ x y, x ∈ xs → y ∈ xs → x = y.
Proof.
  intros Hne.
  assert (Hn : (0 < length xs)%nat) by (destruct xs; [done|simpl; lia]).
  rewrite zero_error_iff_no_mismatch, shifted_mismatches_zero_iff by done.
  split.
  - intros Hall.
    assert (Hfirst : ∀ i : nat, (i < length xs)%nat → xs !! i = xs !! 0).
    { induction i as [|i IH]; [done|]. intros Hi.
      rewrite Hall, before_succ by done. apply IH. lia. }
    intros x y [i Hx]%list_elem_of_lookup [j Hy]%list_elem_of_lookup.
    rewrite Hfirst in Hx by (by eapply lookup_lt_Some).
    rewrite Hfirst in Hy by (by eapply lookup_lt_Some).
    congruence.
  - intros Hconst i Hi.
    destruct (lookup_lt_is_Some_2 xs i Hi) as [x Hx].
    destruct (lookup_lt_is_Some_2 xs (before (length xs) i)) as [y Hy];
      [by apply before_lt|].
    rewrite Hx, Hy. f_equal.
    apply Hconst; by eapply list_elem_of_lookup_2.
Qed.

Lemma rotate_rotate {T} (j k : nat) (l : list T) :
  rotate j (rotate k l) = rotate (j + k) l.
Proof.
  apply list_eq. intros i.
  destruct (decide (i < length l)%nat) as [Hi|Hi].
  - rewrite (lookup_rotate_r (rotate k l)) by (rewrite length_rotate; lia).
    rewrite length_rotate.
    rewrite (lookup_rotate_r l k) by (apply rotate_nat_add_lt; lia).
    rewrite (lookup_rotate_r l (j + k)) by lia.
    f_equal. unfold rotate_nat_add.
    pose proof (Z.mod_pos_bound (Z.of_nat j + Z.of_nat i) (Z.of_nat (length l))).
    rewrite Z2Nat.id by lia. rewrite Zplus_mod_idemp_r. f_equal. f_equal. lia.
  - rewrite !lookup_ge_None_2; [done|rewrite ?length_rotate; lia..].
Qed.

Lemma roll_rotate {T} (k : nat) (l : list T) :
  roll (rotate k l) 1 = rotate k (roll l 1).
Proof.
  unfold roll. rewrite length_rotate, !rotate_rotate. f_equal. lia.
Qed.

Lemma zip_with_rotate {A B C} (f : A → B → C) (k : nat) (l : list A)
    (m : list B) :
  length l = length m →
  zip_with f (rotate k l) (rotate k m) = rotate k (zip_with f l m).
Proof.
  intros Hlen. apply list_eq. intros i.
  assert (Hz : length (zip_with f l m) = length l)
    by (by apply length_zip_with_l_eq).
  destruct (decide (i < length l)%nat) as [Hi|Hi].
  - rewrite lookup_zip_with, !lookup_rotate_r by lia.
    by rewrite lookup_zip_with, Hz, <- Hlen.
  - rewrite !lookup_ge_None_2; [done|..].
    + rewrite length_rotate. lia.
    + rewrite length_zip_with_l_eq; rewrite !length_rotate; lia.
Qed.

Lemma count_true_rotate (k : nat) bs : count_true (rotate k bs) = count_true bs.
Proof.
  unfold rotate. rewrite count_true_app.
  rewrite <- (take_drop (k `mod` length bs) bs) at 5.
  rewrite count_true_app. lia.
Qed.

(** X16.  The error is a property of the circle: rotating [predicted] and
    [actual] by the same number of positions leaves the result and the
    trace of [calculate_error] unchanged. *)
Theorem calculate_error_rotation_invariant mismatch (k : nat) predicted actual tr :
  length predicted = length actual →
  calculate_error mismatch (Some (rotate k predicted)) (rotate k actual) tr =
  calculate_error mismatch (Some predicted) actual tr.
Proof.
  intros Hlen.
  destruct (decide (actual = [])) as [->|Hne].
  { destruct predicted; [|done].
    assert (Hnil : ∀ T, rotate k (@nil T) = []).
    { intros T. apply length_zero_iff_nil. by rewrite length_rotate. }
    by rewrite !Hnil. }
  assert (Hrot_ne : rotate k actual ≠ []).
  { intros Hnil. apply (f_equal length) in Hnil.
    rewrite length_rotate in Hnil. by destruct actual. }
  rewrite !calculate_error_same_length by (by rewrite ?length_rotate).
  simpl. rewrite length_rotate.
  rewrite <- !count_shifted_comparison by (by rewrite ?length_rotate).
  rewrite roll_rotate.
  replace (Some <$> rotate k (roll predicted 1))
    with (rotate k (Some <$> roll predicted 1)).
  2:{ unfold rotate. by rewrite fmap_app, fmap_drop, fmap_take, length_fmap. }
  rewrite zip_with_rotate by (by rewrite length_fmap, length_roll).
  by rewrite count_true_rotate.
Qed.
End ShiftConvention.

(** ** The validation step *)

Section ValidationProofs.
Context {V : Type} `{EqDecision V}.
Implicit Types (model_bayesian : BayesianNetwork V).
Implicit Types (states_validation : DataFrame V) (tr : list (event V)).

(** X17.  Reading the column "Close" is not under a [try]: on a validation
    table without that column the step raises [KeyError] to the script,
    before any prediction is attempted and with nothing logged. *)
Theorem validation_needs_close mismatch model_bayesian states_validation tr :
  "Close" ∉ columns states_validation →
  validation_error mismatch model_bayesian states_validation tr =
    (Raised (KeyError ["Close"]), tr).
Proof.
  intros Hclose. unfold validation_error, py_bind, lift.
  by rewrite df_getitem_missing.
Qed.

(** X18.  A validation table with a non-empty column "Close" but no column
    "forecast" does not stop the script: the prediction fails and is
    logged, and the error reported is exactly 1. *)
Theorem validation_without_label_reports_one mismatch model_bayesian
    states_validation tr validation_real :
  df_getitem states_validation "Close" = Returned validation_real →
  validation_real ≠ [] →
  "forecast" ∉ columns states_validation →
  validation_error mismatch model_bayesian states_validation tr =
    (Returned (Some (Real 1%Qc)),
     tr ++ [LogPredictFailed (KeyError ["forecast"]);
            PrintError (Real (Qc_of_Z 100)); LogError (Real (Qc_of_Z 100))]).
Proof.
  intros Hclose Hne Hf. unfold validation_error, py_bind, lift.
  rewrite Hclose, (predict_value_no_forecast _ _ _ Hf).
  rewrite (calculate_error_of_comparison_run _ _ _ _
             (BoolArray ((λ x, ne x None) <$> validation_real))) by done.
  rewrite np_mean_nonempty by (by destruct validation_real).
  rewrite count_true_all, length_fmap by done.
  rewrite fraction_full by (destruct validation_real; [done|simpl; lia]).
  simpl. rewrite Qcmult_1_l. by rewrite <- app_assoc.
Qed.

(** X19.  When the table has both columns and the inference engine returns
    as many forecasts as the table has rows, the step returns the fraction
    of rows [i] whose "Close" value differs from the forecast of row
    [(i-1) mod n]; the query's own "forecast" values play no part. *)
Theorem validation_error_is_shifted_fraction mismatch model_bayesian
    states_validation tr validation_real prediction pred_value :
  df_getitem states_validation "Close" = Returned validation_real →
  "forecast" ∈ columns states_validation →
  predict model_bayesian (kept_columns model_bayesian states_validation) =
    Returned prediction →
  df_getitem prediction "forecast" = Returned pred_value →
  length pred_value = length validation_real → validation_real ≠ [] →
  (validation_error mismatch model_bayesian states_validation tr).1 =
    Returned (Some (Real (fraction (shifted_mismatches pred_value validation_real)
                                   (length validation_real)))).
Proof.
  intros Hclose Hf Hp Hget Hlen Hne. unfold validation_error, py_bind, lift.
  rewrite Hclose, (predict_value_with_forecast _ _ _ Hf). simpl.
  rewrite Hp, Hget.
  by rewrite calculate_error_same_length.
Qed.
End ValidationProofs.

(** * Worked examples *)

(** Three methods and the budgets 5 and 10: six cells.  BDeuScore and
    BDsScore tie at the top on budget 10; the earlier of the two is kept. *)
Example find_best_model_example :
  (find_best_model example_estimate example_train example_methods [5; 10]%Z []).1 =
  Returned (Some (mkDAG ["A"; "B"; "forecast"]
                        [("A", "forecast"); ("B", "forecast")]),
            Some "BDeuScore", Real (Qc_of_Z 20), Some 10%Z).
Proof. reflexivity. Qed.

(** The same pairs inserted in another order: the same score, another
    method name. *)
Example find_best_model_shuffled_example :
  (find_best_model example_estimate example_train example_methods_shuffled
     [5; 10]%Z []).1 =
  Returned (Some (mkDAG ["A"; "B"; "forecast"]
                        [("A", "forecast"); ("B", "forecast")]),
            Some "BDsScore", Real (Qc_of_Z 20), Some 10%Z).
Proof. reflexivity. Qed.

(** With one cell at the top, both insertion orders return one and the
    same tuple. *)
Example find_best_model_unique_max_example :
  (find_best_model example_estimate example_train
     [("BicScore", edge_score 3); ("BDeuScore", edge_score 0)] [5; 10]%Z []).1 =
  (find_best_model example_estimate example_train
     [("BDeuScore", edge_score 0); ("BicScore", edge_score 3)] [5; 10]%Z []).1.
Proof. reflexivity. Qed.

(** An empty grid leaves the sentinels. *)
Example find_best_model_empty_example :
  (find_best_model example_estimate example_train [] [5; 10]%Z []).1 =
  Returned (None, None, NegInf, None).
Proof. reflexivity. Qed.

(** Column "volume" is no node and "forecast" is the label: only "A"
    reaches the inference engine. *)
Example predict_value_example :
  predict_value example_network example_states [] =
  (Returned (Some [0; 1; 1]%Z),
   [LogDataNewColumns ["A"]; LogModelNodes ["A"; "forecast"];
    CallPredict [("A", [0; 1; 1]%Z)]; PrintPredicted [0; 1; 1]%Z]).
Proof. vm_compute. reflexivity. Qed.

(** A failed prediction is [None]; [calculate_error] compares every actual
    value with [None] and reports an error of 1. *)
Example absent_prediction_example :
  (predict_value example_network example_states_unlabelled []).1 = Returned None ∧
  (calculate_error MismatchRaises None [0; 1; 0]%Z []).1 =
    Returned (Some (Real (fraction 3 3))).
Proof. split; vm_compute; reflexivity. Qed.

(** One mismatch in three positions. *)
Example calculate_error_example :
  (calculate_error MismatchRaises (Some [1; 2; 3]%Z) [3; 1; 5]%Z []).1 =
  Returned (Some (Real (fraction 1 3))).
Proof. vm_compute. reflexivity. Qed.

(** On one element the shift is the identity (specification, property 6). *)
Example calculate_error_singleton_example :
  (calculate_error MismatchRaises (Some [5]%Z) [5]%Z []).1 =
  Returned (Some (Real (fraction 0 1))).
Proof. vm_compute. reflexivity. Qed.

(** ** Counterexamples to the claims as first stated *)

(** C2 as stated fails on the empty sequences: they have equal length, and
    the result is [nan], which is no value of [0,1]. *)
Lemma calculate_error_empty_is_nan :
  length (@nil Z) = length (@nil Z) ∧
  calculate_error MismatchRaises (Some []) (@nil Z) [] =
    (Returned (Some NaN), [PrintError NaN; LogError NaN]) ∧
  calculate_error MismatchIsTrue (Some []) (@nil Z) [] =
    (Returned (Some NaN), [PrintError NaN; LogError NaN]) ∧
  ¬ in_unit_interval NaN.
Proof. split_and!; [reflexivity..|]. intros []. Qed.

(** C5 as stated fails on lengths 5 and 7: nothing is raised to the caller.
    Where NumPy raises, the handler returns [None]; where it does not, the
    number 1 is returned.  A sequence of length 1 is broadcast and a number
    is returned under either behaviour. *)
Lemma mismatched_lengths_not_raised :
  (calculate_error MismatchRaises (Some [1; 2; 3; 4; 5]%Z)
     [1; 2; 3; 4; 5; 6; 7]%Z []).1 = Returned None ∧
  (calculate_error MismatchIsTrue (Some [1; 2; 3; 4; 5]%Z)
     [1; 2; 3; 4; 5; 6; 7]%Z []).1 = Returned (Some (Real 1%Qc)) ∧
  (calculate_error MismatchRaises (Some [1]%Z) [1; 2; 3]%Z []).1 =
    Returned (Some (Real (fraction 2 3))).
Proof. split_and!; vm_compute; reflexivity. Qed.

(** C6 as stated fails under a tie: the two orders report the same score
    and budget but another method and another structure, so more than the
    method and the budget differs. *)
Lemma tie_changes_structure :
  tie_methods ≡ₚ tie_methods_swapped ∧
  (find_best_model tie_estimate example_train tie_methods [5]%Z []).1 =
    Returned (Some tie_left, Some "BDeuScore", Real (Qc_of_Z 5), Some 5%Z) ∧
  (find_best_model tie_estimate example_train tie_methods_swapped [5]%Z []).1 =
    Returned (Some tie_right, Some "BDsScore", Real (Qc_of_Z 5), Some 5%Z) ∧
  tie_left ≠ tie_right.
Proof.
  split; [apply perm_swap|]. split; [reflexivity|]. split; [reflexivity|].
  discriminate.
Qed.

(** ** The theorems at concrete inputs *)

Lemma find_best_model_global_max_witness :
  example_methods ≠ [] ∧ [5; 10]%Z ≠ [] ∧
  ∃ pre c post,
    grid example_methods [5; 10]%Z = pre ++ c :: post ∧
    (find_best_model example_estimate example_train example_methods
       [5; 10]%Z []).1 =
      Returned (Some (cell_model example_estimate example_train c), Some c.2.1,
                Real (cell_score example_estimate example_train c), Some c.1) ∧
    (∀ c', c' ∈ grid example_methods [5; 10]%Z →
           (cell_score example_estimate example_train c'
            ≤ cell_score example_estimate example_train c)%Qc) ∧
    (∀ c', c' ∈ pre →
           (cell_score example_estimate example_train c'
            < cell_score example_estimate example_train c)%Qc).
Proof.
  split; [discriminate|]. split; [discriminate|].
  apply (find_best_model_global_max example_estimate example_train
           example_methods [5; 10]%Z []); discriminate.
Defined.

Lemma first_cell_becomes_best_witness :
  example_methods ≠ [] ∧ [5; 10]%Z ≠ [] ∧
  ∃ max_iter method_name scoring_method rest,
    head [5; 10]%Z = Some max_iter ∧
    head example_methods = Some (method_name, scoring_method) ∧
    grid example_methods [5; 10]%Z =
      (max_iter, (method_name, scoring_method)) :: rest ∧
    let model := example_estimate example_train scoring_method max_iter in
    let first := {| best_model := Some model;
                    best_score := Real (score scoring_method model);
                    best_method := Some method_name;
                    best_iter := Some max_iter |} in
    let printed := [PrintTraining method_name max_iter;
                    PrintScore method_name max_iter
                      (score scoring_method model)] in
    cell_body example_estimate example_train max_iter
      (method_name, scoring_method)
      {| best_model := None; best_score := NegInf;
         best_method := None; best_iter := None |} [] =
      (Returned first, [] ++ printed) ∧
    find_best_model example_estimate example_train example_methods
      [5; 10]%Z [] =
      (best <- run_cells example_estimate example_train rest first ;;
       py_ret (best_model best, best_method best, best_score best,
               best_iter best))
      ([] ++ printed).
Proof.
  split; [discriminate|]. split; [discriminate|].
  apply (first_cell_becomes_best example_estimate example_train
           example_methods [5; 10]%Z []); discriminate.
Defined.

Lemma best_score_order_independent_witness :
  example_methods ≡ₚ example_methods_shuffled ∧
  ∃ t1 t2,
    (find_best_model example_estimate example_train example_methods
       [5; 10]%Z []).1 = Returned t1 ∧
    (find_best_model example_estimate example_train example_methods_shuffled
       [5; 10]%Z []).1 = Returned t2 ∧
    returned_score t1 = returned_score t2 ∧
    ((∀ c1 c2, c1 ∈ grid example_methods [5; 10]%Z →
               c2 ∈ grid example_methods [5; 10]%Z →
               Real (cell_score example_estimate example_train c1) =
                 returned_score t1 →
               Real (cell_score example_estimate example_train c2) =
                 returned_score t1 →
               c1 = c2) →
     t1 = t2).
Proof.
  assert (Hperm : example_methods ≡ₚ example_methods_shuffled).
  { exact (Permutation_sym
             (Permutation_cons_append
                [("BicScore", edge_score 3); ("BDeuScore", edge_score 0)]
                ("BDsScore", edge_score 0))). }
  split; [exact Hperm|].
  exact (best_score_order_independent example_estimate example_train
           example_methods example_methods_shuffled [5; 10]%Z [] [] Hperm).
Defined.

Lemma forecast_never_given_to_inference_witness :
  "forecast" ∈ columns example_states ∧
  "forecast" ∈ nodes example_network ∧
  ∃ data_new,
    inference_inputs ((predict_value example_network example_states []).2) =
      inference_inputs [] ++ [data_new] ∧
    ("forecast" ∉ columns data_new) ∧
    (∀ l, l ∈ columns data_new → l ∈ nodes example_network) ∧
    data_new =
      filter (λ col, col.1 ≠ "forecast" ∧ col.1 ∈ nodes example_network)
             example_states.
Proof.
  assert (Hcol : "forecast" ∈ columns example_states).
  { apply list_elem_of_In. simpl. tauto. }
  split; [exact Hcol|]. split; [apply list_elem_of_In; simpl; tauto|].
  exact (forecast_never_given_to_inference example_network example_states [] Hcol).
Defined.

Lemma predict_value_failure_is_logged_witness :
  predict_value_body example_network example_states_unlabelled [] =
    (Raised (KeyError ["forecast"]), []) ∧
  predict_value example_network example_states_unlabelled [] =
    (Returned None, [] ++ [LogPredictFailed (KeyError ["forecast"])]).
Proof.
  assert (Hbody : predict_value_body example_network example_states_unlabelled [] =
                  (Raised (KeyError ["forecast"]), [])).
  { vm_compute. reflexivity. }
  split; [exact Hbody|].
  exact (predict_value_failure_is_logged example_network
           example_states_unlabelled [] _ _ Hbody).
Defined.

Lemma calculate_error_is_shifted_fraction_witness :
  length [1; 2; 3]%Z = length [3; 1; 5]%Z ∧ [3; 1; 5]%Z ≠ [] ∧
  ∃ error : Qc,
    error = fraction (shifted_mismatches [1; 2; 3]%Z [3; 1; 5]%Z)
                     (length [3; 1; 5]%Z) ∧
    calculate_error MismatchRaises (Some [1; 2; 3]%Z) [3; 1; 5]%Z [] =
      (Returned (Some (Real error)),
       [] ++ [PrintError (Real (error * Qc_of_Z 100));
              LogError (Real (error * Qc_of_Z 100))]) ∧
    (0 ≤ error ≤ 1)%Qc.
Proof.
  split; [reflexivity|]. split; [discriminate|].
  apply (calculate_error_is_shifted_fraction MismatchRaises
           [1; 2; 3]%Z [3; 1; 5]%Z []); [reflexivity|discriminate].
Defined.

Lemma rotated_prediction_has_zero_error_witness :
  [3; 1; 2]%Z ≠ [] ∧ length [1; 2; 3]%Z = length [3; 1; 2]%Z ∧
  (∀ i : nat, i < 3 → [1; 2; 3]%Z !! i = [3; 1; 2]%Z !! ((i + 1) `mod` 3)%nat) ∧
  calculate_error MismatchRaises (Some [1; 2; 3]%Z) [3; 1; 2]%Z [] =
    (Returned (Some (Real 0%Qc)),
     [] ++ [PrintError (Real 0%Qc); LogError (Real 0%Qc)]).
Proof.
  assert (Hrot : ∀ i : nat, i < 3 →
            [1; 2; 3]%Z !! i = [3; 1; 2]%Z !! ((i + 1) `mod` 3)%nat).
  { intros [|[|[|i]]] Hi; [reflexivity..|lia]. }
  split; [discriminate|]. split; [reflexivity|]. split; [exact Hrot|].
  apply (rotated_prediction_has_zero_error MismatchRaises
           [1; 2; 3]%Z [3; 1; 2]%Z []); [discriminate|reflexivity|exact Hrot].
Defined.

Lemma mismatched_lengths_are_logged_witness :
  length [1; 2; 3; 4; 5]%Z ≠ length [1; 2; 3; 4; 5; 6; 7]%Z ∧
  length [1; 2; 3; 4; 5]%Z ≠ 1 ∧ length [1; 2; 3; 4; 5; 6; 7]%Z ≠ 1 ∧
  (∀ mismatch, ∃ r tr',
     calculate_error mismatch (Some [1; 2; 3; 4; 5]%Z)
       [1; 2; 3; 4; 5; 6; 7]%Z [] = (Returned r, tr')) ∧
  calculate_error MismatchRaises (Some [1; 2; 3; 4; 5]%Z)
    [1; 2; 3; 4; 5; 6; 7]%Z [] =
    (Returned None,
     [] ++ [LogCalculateFailed
              (ValueError "operands could not be broadcast together")]).
Proof.
  assert (H57 : length [1; 2; 3; 4; 5]%Z ≠ length [1; 2; 3; 4; 5; 6; 7]%Z)
    by (simpl; lia).
  assert (H5 : length [1; 2; 3; 4; 5]%Z ≠ 1) by (simpl; lia).
  assert (H7 : length [1; 2; 3; 4; 5; 6; 7]%Z ≠ 1) by (simpl; lia).
  split; [exact H57|]. split; [exact H5|]. split; [exact H7|].
  destruct (mismatched_lengths_are_logged [1; 2; 3; 4; 5]%Z
              [1; 2; 3; 4; 5; 6; 7]%Z [] H57) as [Hret Hlog].
  split; [exact Hret|exact (Hlog H5 H7)].
Defined.

(** ** The further properties at concrete inputs *)

Lemma find_best_model_none_iff_empty_witness :
  example_methods ≠ [] ∧ [5; 10]%Z ≠ [] ∧
  ∃ g name s b,
    (find_best_model example_estimate example_train example_methods
       [5; 10]%Z []).1 = Returned (Some g, Some name, Real s, Some b).
Proof.
  assert (Hsm : example_methods ≠ []) by discriminate.
  assert (Hmi : [5; 10]%Z ≠ []) by discriminate.
  split; [exact Hsm|]. split; [exact Hmi|].
  exact (proj2 (find_best_model_none_iff_empty example_estimate example_train
                  example_methods [5; 10]%Z []) Hsm Hmi).
Defined.

Lemma find_best_model_repeat_witness :
  (∀ b, b ∈ [5]%Z → b ∈ [5; 10]%Z) ∧
  (find_best_model example_estimate example_train example_methods
     ([5; 10]%Z ++ [5]%Z) []).1 =
  (find_best_model example_estimate example_train example_methods
     [5; 10]%Z []).1.
Proof.
  assert (Hsub : ∀ b, b ∈ [5]%Z → b ∈ [5; 10]%Z).
  { intros b Hb. apply list_elem_of_singleton in Hb. subst b. left. }
  split; [exact Hsub|].
  exact (find_best_model_repeat example_estimate example_train example_methods
           [5; 10]%Z [5]%Z [] Hsub).
Defined.

Lemma best_score_never_decreases_witness :
  (1 ≤ 3)%nat ∧
  ∃ best best' tr_k tr_k' result,
    run_cells example_estimate example_train
      (take 1 (grid example_methods [5; 10]%Z))
      {| best_model := None; best_score := NegInf;
         best_method := None; best_iter := None |} [] =
      (Returned best, tr_k) ∧
    run_cells example_estimate example_train
      (take 3 (grid example_methods [5; 10]%Z))
      {| best_model := None; best_score := NegInf;
         best_method := None; best_iter := None |} [] =
      (Returned best', tr_k') ∧
    (find_best_model example_estimate example_train example_methods
       [5; 10]%Z []).1 = Returned result ∧
    (best' = best ∨ float_gt (best_score best') (best_score best) = true) ∧
    (result = (best_model best, best_method best, best_score best,
               best_iter best) ∨
     float_gt (returned_score result) (best_score best) = true).
Proof.
  assert (Hk : (1 ≤ 3)%nat) by lia.
  split; [exact Hk|].
  exact (best_score_never_decreases example_estimate example_train
           example_methods [5; 10]%Z [] 1 3 Hk).
Defined.

Lemma predict_value_without_label_witness :
  ("forecast" ∉ columns example_states_unlabelled) ∧
  predict_value example_network example_states_unlabelled [] =
    (Returned None, [] ++ [LogPredictFailed (KeyError ["forecast"])]) ∧
  inference_inputs ((predict_value example_network example_states_unlabelled []).2) =
    inference_inputs [].
Proof.
  assert (Hf : "forecast" ∉ columns example_states_unlabelled).
  { rewrite list_elem_of_In. simpl. intros [H|[H|[]]]; discriminate H. }
  split; [exact Hf|].
  exact (predict_value_without_label example_network
           example_states_unlabelled [] Hf).
Defined.

Lemma predict_value_ignores_labels_witness :
  kept_columns example_network example_states =
    kept_columns example_network example_states_relabelled ∧
  predict_value example_network example_states [] =
    predict_value example_network example_states_relabelled [].
Proof.
  assert (Hkept : kept_columns example_network example_states =
                  kept_columns example_network example_states_relabelled).
  { vm_compute. reflexivity. }
  split; [exact Hkept|].
  apply (predict_value_ignores_labels example_network example_states
           example_states_relabelled []);
    [apply list_elem_of_In; simpl; tauto..|exact Hkept].
Defined.

Lemma predict_value_needs_forecast_node_witness :
  ("forecast" ∉ nodes example_network_close) ∧
  (predict_value example_network_close example_states []).1 = Returned None.
Proof.
  assert (Hnode : "forecast" ∉ nodes example_network_close).
  { rewrite list_elem_of_In. simpl. intros [H|[H|[]]]; discriminate H. }
  split; [exact Hnode|].
  apply (predict_value_needs_forecast_node example_network_close
           example_states []); [|exact Hnode].
  intros d prediction Hp l Hl. simpl in Hp.
  destruct (df_getitem d "A") as [a|e]; [|discriminate Hp].
  injection Hp as <-. apply list_elem_of_In in Hl. simpl in Hl.
  destruct Hl as [<-|[]]. apply list_elem_of_In. simpl. tauto.
Defined.

Lemma calculate_error_range_witness :
  in_unit_interval (Real (fraction 1 3)) ∨
  (Real (fraction 1 3) = NaN ∧
   ([3; 1; 5]%Z = [] ∨ Some [1; 2; 3]%Z = Some [])).
Proof.
  apply (calculate_error_range MismatchRaises (Some [1; 2; 3]%Z)
           [3; 1; 5]%Z []).
  vm_compute. reflexivity.
Defined.

Lemma calculate_error_absent_prediction_witness :
  calculate_error MismatchRaises None [0; 1; 0]%Z [] =
    (Returned (Some (Real 1%Qc)),
     [] ++ [PrintError (Real (Qc_of_Z 100)); LogError (Real (Qc_of_Z 100))]).
Proof.
  apply (calculate_error_absent_prediction MismatchRaises [0; 1; 0]%Z []).
  discriminate.
Defined.

Lemma calculate_error_broadcasts_singleton_witness :
  (calculate_error MismatchRaises (Some [1]%Z) [1; 2; 3]%Z []).1 =
    Returned (Some (Real (fraction
                            (length (filter (λ x, x ≠ 1%Z) [1; 2; 3]%Z))
                            (length [1; 2; 3]%Z)))).
Proof.
  apply (calculate_error_broadcasts_singleton MismatchRaises 1%Z
           [1; 2; 3]%Z []).
  simpl. lia.
Defined.

Lemma mismatched_lengths_legacy_numpy_witness :
  calculate_error MismatchIsTrue (Some [1; 2; 3; 4; 5]%Z)
    [1; 2; 3; 4; 5; 6; 7]%Z [] =
    (Returned (Some (Real 1%Qc)),
     [] ++ [PrintError (Real (Qc_of_Z 100)); LogError (Real (Qc_of_Z 100))]).
Proof.
  apply (mismatched_lengths_legacy_numpy [1; 2; 3; 4; 5]%Z
           [1; 2; 3; 4; 5; 6; 7]%Z []); simpl; lia.
Defined.

Lemma zero_error_iff_rotated_witness :
  (calculate_error MismatchRaises (Some [1; 2; 3]%Z) [3; 1; 2]%Z []).1 =
    Returned (Some (Real 0%Qc)) ↔
  ∀ i : nat, (i < length [3; 1; 2]%Z)%nat →
             [1; 2; 3]%Z !! i =
             [3; 1; 2]%Z !! ((i + 1) `mod` length [3; 1; 2]%Z)%nat.
Proof.
  apply (zero_error_iff_rotated MismatchRaises [1; 2; 3]%Z [3; 1; 2]%Z []);
    [reflexivity|discriminate].
Defined.

Lemma self_error_zero_iff_constant_witness :
  (calculate_error MismatchRaises (Some [4; 4; 4]%Z) [4; 4; 4]%Z []).1 =
    Returned (Some (Real 0%Qc)) ↔
  ∀ x y, x ∈ [4; 4; 4]%Z → y ∈ [4; 4; 4]%Z → x = y.
Proof.
  apply (self_error_zero_iff_constant MismatchRaises [4; 4; 4]%Z []).
  discriminate.
Defined.

Lemma calculate_error_rotation_invariant_witness :
  calculate_error MismatchRaises (Some (rotate 1 [1; 2; 3]%Z))
    (rotate 1 [3; 1; 5]%Z) [] =
  calculate_error MismatchRaises (Some [1; 2; 3]%Z) [3; 1; 5]%Z [].
Proof.
  apply (calculate_error_rotation_invariant MismatchRaises 1
           [1; 2; 3]%Z [3; 1; 5]%Z []).
  reflexivity.
Defined.

Lemma validation_needs_close_witness :
  ("Close" ∉ columns example_states) ∧
  validation_error MismatchRaises example_network example_states [] =
    (Raised (KeyError ["Close"]), []).
Proof.
  assert (Hclose : "Close" ∉ columns example_states).
  { rewrite list_elem_of_In. simpl. intros [H|[H|[H|[]]]]; discriminate H. }
  split; [exact Hclose|].
  exact (validation_needs_close MismatchRaises example_network
           example_states [] Hclose).
Defined.

Lemma validation_without_label_reports_one_witness :
  validation_error MismatchRaises example_network
    example_validation_unlabelled [] =
    (Returned (Some (Real 1%Qc)),
     [] ++ [LogPredictFailed (KeyError ["forecast"]);
            PrintError (Real (Qc_of_Z 100)); LogError (Real (Qc_of_Z 100))]).
Proof.
  apply (validation_without_label_reports_one MismatchRaises example_network
           example_validation_unlabelled [] [1; 0; 1]%Z).
  - reflexivity.
  - discriminate.
  - rewrite list_elem_of_In. simpl. intros [H|[H|[]]]; discriminate H.
Defined.

Lemma validation_error_is_shifted_fraction_witness :
  (validation_error MismatchRaises example_network example_validation []).1 =
    Returned (Some (Real (fraction
                            (shifted_mismatches [0; 1; 1]%Z [1; 0; 1]%Z)
                            (length [1; 0; 1]%Z)))).
Proof.
  apply (validation_error_is_shifted_fraction MismatchRaises example_network
           example_validation [] [1; 0; 1]%Z [("forecast", [0; 1; 1]%Z)]
           [0; 1; 1]%Z).
  - reflexivity.
  - apply list_elem_of_In. simpl. tauto.
  - vm_compute. reflexivity.
  - reflexivity.
  - reflexivity.
  - discriminate.
Defined.
